(** * Vuegraf: time-window reconciliation and device-tree extraction

    A shallow embedding of [src/vuegraf/datapoint.py], [src/vuegraf/config.py]
    and of the collection loop of [src/vuegraf/vuegraf.py], with the
    properties of the window resolver, of the extraction pass, of the
    historical sub-batching and of the flush discipline.

    Conventions of the embedding.
    - A [datetime] is a number of whole seconds: seconds since the epoch for
      an aware UTC value, seconds of wall-clock time for a value carried in
      the account's time zone.  Every datetime the program computes with is
      built from [now.replace(microsecond=0)], from a timestamp parsed at
      second resolution or from whole-second timedeltas, so
      [replace(microsecond=0)] is the identity here and
      [int(delta.total_seconds())] is the difference itself.
    - Usage samples are Python floats: IEEE binary64, Rocq's primitive
      [float].
    - The metering API, the sink and the account's time zone are
      collaborators, given as classes; the state they act on is threaded
      through the [world].
    - Inside [extract_data_points] the name [device] is the parameter, a
      usage device of the metering API, and not the module
      [src.vuegraf.device] that line 9 imports under the same name: the
      calls written [device.lookup_device_name] and
      [device.lookup_channel_name] there are attribute look-ups on the usage
      device.  The functions of device.py are modelled for themselves, in
      [Module Device].
    - Logging, the login of an account and the waits between rounds leave
      no trace in what is proved and are left out. *)

From Stdlib Require Import ZArith List String Ascii Bool Lia Floats.
From stdpp Require Import base gmap strings pretty.
Import ListNotations.
Local Open Scope string_scope.
Local Open Scope Z_scope.

(** ** Dates and durations *)

Definition datetime := Z.

Module timedelta.
Definition seconds (n : Z) : Z := n.
Definition minutes (n : Z) : Z := 60 * n.
Definition hours (n : Z) : Z := 3600 * n.
Definition days (n : Z) : Z := 86400 * n.
End timedelta.

(** The [second] field of a datetime. *)
Definition second (t : datetime) : Z := t mod 60.

(** [t.replace(second=0, microsecond=0)] *)
Definition replace_second0 (t : datetime) : datetime := t - t mod 60.

(** [t.replace(minute=0, second=0, microsecond=0)] *)
Definition replace_minute0 (t : datetime) : datetime := t - t mod 3600.

(** [t.replace(hour=0, minute=0, second=0, microsecond=0)] *)
Definition replace_midnight (t : datetime) : datetime := t - t mod 86400.

(** [t.replace(hour=23, minute=59, second=59, microsecond=0)] *)
Definition replace_day_end (t : datetime) : datetime := t - t mod 86400 + 86399.

(** ** Data model *)

(** [pyemvue.enums.Scale], the four scales the program asks for. *)
Inductive Scale := SECOND | MINUTE | HOUR | DAY.

(** A usage tree as [get_device_list_usage] returns it: a device with its
    channels ([device.channels], a dict read in insertion order), each
    channel with its usage in kWh ([None]: no sample) and the devices
    nested under it ([chan.nested_devices], a dict, possibly empty). *)
Inductive VueUsageDevice : Type :=
  mkDevice (device_gid : Z)
           (channels : list (string * VueDeviceChannelUsage))
with VueDeviceChannelUsage : Type :=
  mkChannel (chan_device_gid : Z) (channel_num : string)
            (usage : option float)
            (nested_devices : list (Z * VueUsageDevice)).

Definition device_gid (d : VueUsageDevice) : Z :=
  match d with mkDevice g _ => g end.
Definition channels (d : VueUsageDevice) :=
  match d with mkDevice _ c => c end.
Definition usage (c : VueDeviceChannelUsage) : option float :=
  match c with mkChannel _ _ u _ => u end.
Definition nested_devices (c : VueDeviceChannelUsage) :=
  match c with mkChannel _ _ _ n => n end.

(** The entry of the configuration for one account; the session
    ([account['vue']]) and the device maps live with the metering API. *)
Record account := { name : string }.

(** The content of a point, the same for both encodings (the write-protocol
    object of InfluxDB 2 and the plain mapping of InfluxDB 1): measurement
    [energy_usage], tags [account_name], [device_name] (the channel name),
    [tag_name] (the granularity tag) and, on request, [station_name]; field
    [usage] in watts; the timestamp ([None] is Python's [None]). *)
Record data_point := {
  p_account_name : string;
  p_device_name : string;
  p_tag_name : string;
  p_detailed : string;
  p_station_name : option string;
  p_usage : float;
  p_time : option datetime
}.

Definition create_data_point (account_name device_name chan_name : string)
    (watts : float) (timestamp : option datetime) (detailed : string)
    (influx_version : Z) (tag_name : string) (add_station_field : bool)
    : data_point :=
  {| p_account_name := account_name;
     p_device_name := chan_name;
     p_tag_name := tag_name;
     p_detailed := detailed;
     p_station_name := if add_station_field then Some device_name else None;
     p_usage := watts;
     p_time := timestamp |}.

(** [float(n)] of a small non-negative int, and the constants of
    [extract_data_points]. *)
Definition float_of_int (n : Z) : float := PrimFloat.of_uint63 (Uint63.of_Z n).

Definition excluded_detail_channel_numbers : list string :=
  ["Balance"; "TotalUsage"].
Definition minutes_in_an_hour : Z := 60.
Definition seconds_in_a_minute : Z := 60.
Definition watts_in_a_kw : Z := 1000.

(** [chan_num in excluded_detail_channel_numbers] *)
Definition excluded (chan_num : string) : bool :=
  existsb (String.eqb chan_num) excluded_detail_channel_numbers.

(** ** Collaborators *)

Inductive exn := ApiError | SinkError | AttributeError.

(** The sink ([query_api] / [influx], [write_api]).  [last_record_time] is
    the query for the last record of a series: measurement [energy_usage],
    the tag [tag_name] equal to [point_type], the channel name and, when the
    station field is in use, the device name; its answer is the timestamp
    string cut to seconds and read as UTC, [None] when the series is empty.
    [write_points] stores a batch or raises. *)
Class SinkClient (Sink : Type) := {
  last_record_time :
    Sink -> string -> bool -> string -> string -> string -> option datetime;
  write_points : Sink -> list data_point -> option exn * Sink
}.

(** The metering API ([account['vue']]): each call answers or raises, and
    moves the remote state. *)
Class MeteringApi (Vue : Type) := {
  get_chart_usage :
    Vue -> account -> VueDeviceChannelUsage -> datetime -> datetime -> Scale ->
    (exn + (list (option float) * datetime)) * Vue;
  get_device_list_usage :
    Vue -> account -> datetime -> Scale ->
    (exn + option (list (Z * VueUsageDevice))) * Vue
}.

(** The account's time zone: [utcoffset t] is the offset, in seconds, of
    local time at the UTC instant [t]; [day t] is the day of the month of
    the local time [t]. *)
Class Locale := {
  utcoffset : datetime -> Z;
  day : datetime -> Z
}.

(** ** The window resolver, [get_last_db_timestamp] *)

Section WindowResolver.

Context {Sink : Type} `{SinkClient Sink}.

Definition get_last_db_timestamp
    (device_name chan_name point_type : string)
    (foo_start_time foo_stop_time : datetime) (foo_history_flag : bool)
    (influx : Sink) (tag_name : string) (add_station_field : bool)
    (tag_value_minute tag_value_second : string)
    (detailed_interval_secs : Z) : datetime * datetime * bool :=
  match last_record_time influx tag_name add_station_field
          device_name chan_name point_type with
  | Some db_last_record_time =>
      let '(foo_start_time, foo_stop_time, foo_history_flag) :=
        if String.eqb point_type tag_value_minute then
          if db_last_record_time <?
               foo_stop_time
               - (timedelta.minutes 2 + timedelta.seconds (second foo_stop_time))
          then
            let foo_start_time := db_last_record_time + timedelta.minutes 1 in
            let foo_start_time :=
              if foo_stop_time - foo_start_time >? 604800
              then foo_stop_time - timedelta.minutes 10080
              else foo_start_time in
            let foo_stop_time :=
              if foo_stop_time - foo_start_time >? 43200
              then foo_start_time + timedelta.minutes 720
              else foo_stop_time in
            (foo_start_time, foo_stop_time, true)
          else (foo_start_time, foo_stop_time, foo_history_flag)
        else (foo_start_time, foo_stop_time, foo_history_flag) in
      if String.eqb point_type tag_value_second then
        if db_last_record_time <? foo_start_time - timedelta.seconds 2 then
          let foo_start_time := db_last_record_time + timedelta.seconds 1 in
          if foo_stop_time - foo_start_time >? 3600 then
            if detailed_interval_secs >=? 3600 then
              (foo_stop_time - timedelta.seconds 3600, foo_stop_time, true)
            else
              let foo_start_time :=
                if foo_stop_time - foo_start_time >? 10800
                then foo_stop_time - timedelta.seconds 10800
                else foo_start_time in
              let foo_stop_time :=
                if foo_stop_time - foo_start_time >? 3600
                then foo_start_time + timedelta.seconds 3600
                else foo_stop_time in
              (foo_start_time, foo_stop_time, true)
          else (foo_start_time, foo_stop_time, true)
        else (foo_start_time, foo_stop_time, foo_history_flag)
      else (foo_start_time, foo_stop_time, foo_history_flag)
  | None =>
      if String.eqb point_type tag_value_minute then
        let foo_start_time := foo_start_time - timedelta.days 7 in
        (foo_start_time, foo_start_time + timedelta.hours 12, true)
      else if String.eqb point_type tag_value_second then
        let foo_start_time := foo_start_time - timedelta.hours 3 in
        (foo_start_time, foo_start_time + timedelta.hours 1, true)
      else (foo_start_time, foo_stop_time, foo_history_flag)
  end.

End WindowResolver.

(** ** The world and the monad of the collection loop *)

(** A request sent to [get_chart_usage]. *)
Record chart_call := {
  call_channel : VueDeviceChannelUsage;
  call_start : datetime;
  call_stop : datetime;
  call_scale : Scale
}.

(** An aware datetime carried in the account's time zone: the wall-clock
    reading and the offset from UTC it was built with.  [replace] and the
    addition of a timedelta act on the wall clock and keep the offset. *)
Record local_datetime := { wall : datetime; utcoff : Z }.

(** [t.astimezone(pytz.UTC)] *)
Definition to_utc (t : local_datetime) : datetime := wall t - utcoff t.

(** What the collection loop reads and changes.  The variables of [main]
    that outlive an exception caught in the loop: the accumulation buffer
    ([usage_data_points], a list shared by reference and appended in place),
    [history], [history_run], [past_day] and [detailed_start_time].  The
    world around it: the remote API with the requests it has received, the
    sink with the batches handed to it (account name and batch, oldest
    first), and the flag [config.running] (constant during a cycle: a
    signal arriving in the middle of one is not modelled). *)
Record world {Vue Sink : Type} := {
  usage_data_points : list data_point;
  history : bool;
  history_run : bool;
  past_day : local_datetime;
  detailed_start_time : datetime;
  vue : Vue;
  chart_calls : list chart_call;
  influx : Sink;
  write_log : list (string * list data_point);
  running : bool
}.
Arguments world : clear implicits.

Section Setters.
Context {Vue Sink : Type}.
Implicit Type w : world Vue Sink.

Definition set_usage_data_points (ps : list data_point) w : world Vue Sink :=
  {| usage_data_points := ps;
     history := history w; history_run := history_run w;
     past_day := past_day w; detailed_start_time := detailed_start_time w;
     vue := vue w; chart_calls := chart_calls w; influx := influx w;
     write_log := write_log w; running := running w |}.

Definition set_history (b : bool) w : world Vue Sink :=
  {| usage_data_points := usage_data_points w;
     history := b; history_run := history_run w;
     past_day := past_day w; detailed_start_time := detailed_start_time w;
     vue := vue w; chart_calls := chart_calls w; influx := influx w;
     write_log := write_log w; running := running w |}.

Definition set_history_run (b : bool) w : world Vue Sink :=
  {| usage_data_points := usage_data_points w;
     history := history w; history_run := b;
     past_day := past_day w; detailed_start_time := detailed_start_time w;
     vue := vue w; chart_calls := chart_calls w; influx := influx w;
     write_log := write_log w; running := running w |}.

Definition set_past_day (t : local_datetime) w : world Vue Sink :=
  {| usage_data_points := usage_data_points w;
     history := history w; history_run := history_run w;
     past_day := t; detailed_start_time := detailed_start_time w;
     vue := vue w; chart_calls := chart_calls w; influx := influx w;
     write_log := write_log w; running := running w |}.

Definition set_detailed_start_time (t : datetime) w : world Vue Sink :=
  {| usage_data_points := usage_data_points w;
     history := history w; history_run := history_run w;
     past_day := past_day w; detailed_start_time := t;
     vue := vue w; chart_calls := chart_calls w; influx := influx w;
     write_log := write_log w; running := running w |}.

(** The API answered: its new state, and the request when it was one for
    chart usage. *)
Definition set_vue (v : Vue) (calls : list chart_call) w : world Vue Sink :=
  {| usage_data_points := usage_data_points w;
     history := history w; history_run := history_run w;
     past_day := past_day w; detailed_start_time := detailed_start_time w;
     vue := v; chart_calls := chart_calls w ++ calls; influx := influx w;
     write_log := write_log w; running := running w |}.

(** The sink was handed a batch. *)
Definition set_influx (s : Sink) (batch : string * list data_point) w
    : world Vue Sink :=
  {| usage_data_points := usage_data_points w;
     history := history w; history_run := history_run w;
     past_day := past_day w; detailed_start_time := detailed_start_time w;
     vue := vue w; chart_calls := chart_calls w; influx := s;
     write_log := write_log w ++ [batch]; running := running w |}.
End Setters.

(** How a computation ends: normally, by an exception, or because the model
    of a [while] loop was given too little fuel. *)
Inductive result (A : Type) : Type :=
| Ok (a : A)
| Raised (e : exn)
| OutOfFuel.
Arguments Ok {A} a.
Arguments Raised {A} e.
Arguments OutOfFuel {A}.

Section Monad.
Context {Vue Sink : Type}.

(** State survives an exception: what was appended or written before a
    [raise] stays appended or written. *)
Definition M (A : Type) : Type := world Vue Sink -> result A * world Vue Sink.

Definition ret {A} (a : A) : M A := fun w => (Ok a, w).

Definition bind {A B} (m : M A) (k : A -> M B) : M B :=
  fun w =>
    match m w with
    | (Ok a, w') => k a w'
    | (Raised e, w') => (Raised e, w')
    | (OutOfFuel, w') => (OutOfFuel, w')
    end.

Definition raise {A} (e : exn) : M A := fun w => (Raised e, w).
Definition out_of_fuel {A} : M A := fun w => (OutOfFuel, w).

(** [try: m  except Exception: handler]: the handler runs in the state the
    exception left. *)
Definition try_except {A} (m : M A) (handler : M A) : M A :=
  fun w =>
    match m w with
    | (Raised _, w') => handler w'
    | r => r
    end.

Definition get_world : M (world Vue Sink) := fun w => (Ok w, w).

(** [usage_data_points.append(p)], for each [p] of [ps] in order. *)
Definition append_points (ps : list data_point) : M unit :=
  fun w => (Ok tt, set_usage_data_points (usage_data_points w ++ ps) w).

(** [usage_data_points = []] *)
Definition clear_points : M unit :=
  fun w => (Ok tt, set_usage_data_points [] w).

Definition modify (f : world Vue Sink -> world Vue Sink) : M unit :=
  fun w => (Ok tt, f w).
End Monad.

Declare Scope vue_scope.
Delimit Scope vue_scope with vue.
Notation "x <- c1 ;; c2" := (bind c1 (fun x => c2))
  (at level 100, c1 at next level, right associativity) : vue_scope.
Notation "c1 ;; c2" := (bind c1 (fun _ => c2))
  (at level 100, right associativity) : vue_scope.
Local Open Scope vue_scope.

(** ** Extraction, [extract_data_points] *)

(** The settings read once from the configuration file and handed down
    unchanged to every call. *)
Record settings := {
  influx_version : Z;
  tag_name : string;
  tag_value_minute : string;
  tag_value_second : string;
  tag_value_hour : string;
  tag_value_day : string;
  add_station_field : bool;
  detailed_interval_secs : Z;
  detailed_data_enabled : bool;
  detailed_seconds_enabled : bool;
  detailed_hours_enabled : bool;
  lag_secs : Z;
  dryrun : bool
}.

(** The loop over a usage sequence,
    [index = 0; for kwh_usage in usage: if kwh_usage is None: index += 1;
     continue; ...append(point(index, kwh_usage)); index += 1]:
    the points it appends, in order. *)
Fixpoint for_usage (point : Z -> float -> data_point)
    (usage : list (option float)) (index : Z) : list data_point :=
  match usage with
  | [] => []
  | None :: usage => for_usage point usage (index + 1)
  | Some kwh_usage :: usage =>
      point index kwh_usage :: for_usage point usage (index + 1)
  end.

(** [no_data_flag] after that loop: no sample of the fetch was present. *)
Definition no_data (usage : list (option float)) : bool :=
  forallb (fun kwh_usage => match kwh_usage with None => true | Some _ => false end)
          usage.

Section Extraction.
Context {Vue Sink : Type} `{MeteringApi Vue} `{SinkClient Sink} `{Locale}.
Variable cfg : settings.

(** [account['vue'].get_chart_usage(chan, start, stop, scale, unit=KWH)] *)
Definition chart_usage (acct : account) (chan : VueDeviceChannelUsage)
    (start stop : datetime) (scale : Scale)
    : @M Vue Sink (list (option float) * datetime) :=
  fun w =>
    let '(r, v) := get_chart_usage (vue w) acct chan start stop scale in
    let w' :=
      set_vue v [{| call_channel := chan; call_start := start;
                    call_stop := stop; call_scale := scale |}] w in
    match r with
    | inl e => (Raised e, w')
    | inr x => (Ok x, w')
    end.

(** The points of one fetch, per granularity (lines 249-260, 293-303,
    310-320 and 322-334 of datapoint.py). *)
Definition minute_points (account_name device_name chan_name : string)
    (usage : list (option float)) (usage_start_time : datetime) :=
  let usage_start_time := replace_second0 usage_start_time in
  for_usage
    (fun index kwh_usage =>
       create_data_point account_name device_name chan_name
         (float_of_int (minutes_in_an_hour * watts_in_a_kw) * kwh_usage)%float
         (Some (usage_start_time + timedelta.minutes index))
         (tag_value_minute cfg)
         (influx_version cfg) (tag_name cfg) (add_station_field cfg))
    usage 0.

Definition second_points (account_name device_name chan_name : string)
    (usage : list (option float)) (usage_start_time : datetime) :=
  for_usage
    (fun index kwh_usage =>
       create_data_point account_name device_name chan_name
         (float_of_int
            (seconds_in_a_minute * minutes_in_an_hour * watts_in_a_kw)
          * kwh_usage)%float
         (Some (usage_start_time + timedelta.seconds index))
         (tag_value_second cfg)
         (influx_version cfg) (tag_name cfg) (add_station_field cfg))
    usage 0.

Definition hour_points (account_name device_name chan_name : string)
    (usage : list (option float)) (usage_start_time : datetime) :=
  let usage_start_time := replace_minute0 usage_start_time in
  for_usage
    (fun index kwh_usage =>
       create_data_point account_name device_name chan_name
         (kwh_usage * float_of_int 1000)%float
         (Some (usage_start_time + timedelta.hours index))
         (tag_value_hour cfg)
         (influx_version cfg) (tag_name cfg) (add_station_field cfg))
    usage 0.

(** Days: the start is taken to the account's zone, [index] days are added
    on the wall clock, the time of day is set to 23:59:59 and the result is
    taken back to UTC with the offset it came with. *)
Definition day_points (account_name device_name chan_name : string)
    (usage : list (option float)) (usage_start_time : datetime) :=
  let offset := utcoffset usage_start_time in
  for_usage
    (fun index kwh_usage =>
       let timestamp := usage_start_time + offset + timedelta.days index in
       let timestamp := replace_day_end timestamp in
       let timestamp := timestamp - offset in
       create_data_point account_name device_name chan_name
         (kwh_usage * float_of_int 1000)%float
         (Some timestamp)
         (tag_value_day cfg)
         (influx_version cfg) (tag_name cfg) (add_station_field cfg))
    usage 0.

(** The catch-up loop, [while no_data_flag: ...] (lines 244-274). *)
Fixpoint minute_catch_up (fuel : nat) (acct : account)
    (device_name chan_name : string) (chan : VueDeviceChannelUsage)
    (stop_time minute_history_start_time stop_time_min : datetime)
    : @M Vue Sink unit :=
  match fuel with
  | O => out_of_fuel
  | S fuel =>
      fetched <- chart_usage acct chan minute_history_start_time
                   stop_time_min MINUTE ;;
      let '(usage, usage_start_time) := fetched in
      append_points
        (minute_points (name acct) device_name chan_name usage usage_start_time) ;;
      if no_data usage then
        if stop_time_min <? replace_second0 stop_time then
          let foo_current_interval :=
            stop_time_min - minute_history_start_time in
          let minute_history_start_time :=
            minute_history_start_time
            + timedelta.seconds foo_current_interval in
          let minute_history_start_time :=
            Z.min minute_history_start_time (replace_second0 stop_time) in
          let stop_time_min :=
            stop_time_min + timedelta.seconds foo_current_interval in
          let stop_time_min :=
            Z.min stop_time_min (replace_second0 stop_time) in
          minute_catch_up fuel acct device_name chan_name chan
            stop_time minute_history_start_time stop_time_min
        else ret tt
      else ret tt
  end.

(** A call [device.method(...)] where [device] is a usage device (lines
    216 and 228: the parameter [device] of [extract_data_points] hides the
    module of line 9).  A usage device is an object of pyemvue that carries
    data: [device_gid], [channels] and the like; it has no attribute
    [lookup_device_name] or [lookup_channel_name], and nothing in the
    program gives it one.  Python looks the attribute up before it
    evaluates the arguments, and the look-up raises [AttributeError]. *)
Definition usage_device_call (device : VueUsageDevice) (method : string)
    : @M Vue Sink string :=
  raise AttributeError.

(** The body of [for chan_num, chan in device.channels.items()] once the
    nested devices are done (lines 228-334). *)
Definition extract_channel (fuel : nat) (acct : account)
    (device : VueUsageDevice)
    (device_name chan_num : string) (chan : VueDeviceChannelUsage)
    (stop_time detailed_start_time : datetime) (collect_details : bool)
    (point_type : option string)
    (history_start_time history_end_time : option datetime)
    : @M Vue Sink unit :=
  let account_name := name acct in
  chan_name <- usage_device_call device "lookup_channel_name" ;;
  match usage chan with
  | Some kwh_usage =>
      match point_type with
      | None =>
          w <- get_world ;;
          let '(minute_history_start_time, stop_time_min,
                minute_history_enabled) :=
            get_last_db_timestamp device_name chan_name
              (tag_value_minute cfg) stop_time stop_time false
              (influx w) (tag_name cfg) (add_station_field cfg)
              (tag_value_minute cfg) (tag_value_second cfg)
              (detailed_interval_secs cfg) in
          if negb minute_history_enabled || excluded chan_num then
            let watts :=
              (float_of_int (minutes_in_an_hour * watts_in_a_kw)
               * kwh_usage)%float in
            let timestamp := replace_second0 stop_time in
            append_points
              [create_data_point account_name device_name chan_name watts
                 (Some timestamp) (tag_value_minute cfg)
                 (influx_version cfg) (tag_name cfg) (add_station_field cfg)]
          else if negb (excluded chan_num)
                  && match history_start_time with
                     | None => true | Some _ => false end then
            minute_catch_up fuel acct device_name chan_name chan
              stop_time minute_history_start_time stop_time_min
          else ret tt
      | Some point_type =>
          if String.eqb point_type (tag_value_day cfg)
             || String.eqb point_type (tag_value_hour cfg) then
            let watts := (kwh_usage * float_of_int 1000)%float in
            let timestamp := history_start_time in
            append_points
              [create_data_point account_name device_name chan_name watts
                 timestamp point_type
                 (influx_version cfg) (tag_name cfg) (add_station_field cfg)]
          else ret tt
      end
  | None => ret tt
  end ;;
  if excluded chan_num then ret tt
  else
    (if collect_details && detailed_seconds_enabled cfg
        && match history_start_time with None => true | Some _ => false end
     then
       w <- get_world ;;
       let '(sec_history_start_time, stop_time_sec, second_history_enabled) :=
         get_last_db_timestamp device_name chan_name
           (tag_value_second cfg) detailed_start_time stop_time
           (detailed_seconds_enabled cfg)
           (influx w) (tag_name cfg) (add_station_field cfg)
           (tag_value_minute cfg) (tag_value_second cfg)
           (detailed_interval_secs cfg) in
       fetched <- chart_usage acct chan sec_history_start_time
                    stop_time_sec SECOND ;;
       let '(usage, usage_start_time) := fetched in
       append_points
         (second_points account_name device_name chan_name usage
            usage_start_time)
     else ret tt) ;;
    match history_start_time, history_end_time with
    | Some history_start_time, Some history_end_time =>
        fetched <- chart_usage acct chan history_start_time
                     history_end_time HOUR ;;
        let '(usage, usage_start_time) := fetched in
        append_points
          (hour_points account_name device_name chan_name usage
             usage_start_time) ;;
        fetched <- chart_usage acct chan history_start_time
                     history_end_time DAY ;;
        let '(usage, usage_start_time) := fetched in
        append_points
          (day_points account_name device_name chan_name usage
             usage_start_time)
    | _, _ => ret tt
    end.

(** [extract_data_points]: the name of the device (line 216), then for
    every channel the devices nested under it and the channel itself. *)
Fixpoint extract_data_points (fuel : nat) (acct : account)
    (device : VueUsageDevice)
    (stop_time detailed_start_time : datetime) (collect_details : bool)
    (point_type : option string)
    (history_start_time history_end_time : option datetime)
    {struct device} : @M Vue Sink unit :=
  match device with
  | mkDevice gid chans =>
      device_name <- usage_device_call device "lookup_device_name" ;;
      (fix channels_loop (chans : list (string * VueDeviceChannelUsage))
         : @M Vue Sink unit :=
         match chans with
         | [] => ret tt
         | (chan_num, chan) :: chans =>
             match chan with
             | mkChannel _ _ _ nested =>
                 (fix nested_loop (nested : list (Z * VueUsageDevice))
                    : @M Vue Sink unit :=
                    match nested with
                    | [] => ret tt
                    | (_, nested_device) :: nested =>
                        extract_data_points fuel acct nested_device
                          stop_time detailed_start_time collect_details
                          point_type history_start_time history_end_time ;;
                        nested_loop nested
                    end) nested
             end ;;
             extract_channel fuel acct device device_name chan_num chan
               stop_time detailed_start_time collect_details
               point_type history_start_time history_end_time ;;
             channels_loop chans
         end) chans
  end.

(** [for gid, dev in usages.items(): extract_data_points(...)] *)
Fixpoint extract_all (fuel : nat) (acct : account)
    (usages : list (Z * VueUsageDevice))
    (stop_time detailed_start_time : datetime) (collect_details : bool)
    (point_type : option string)
    (history_start_time history_end_time : option datetime)
    : @M Vue Sink unit :=
  match usages with
  | [] => ret tt
  | (_, dev) :: usages =>
      extract_data_points fuel acct dev stop_time detailed_start_time
        collect_details point_type history_start_time history_end_time ;;
      extract_all fuel acct usages stop_time detailed_start_time
        collect_details point_type history_start_time history_end_time
  end.
End Extraction.

(** ** Configuration, [config.get_config_value] and the history request *)

Definition get_config_value {V : Type} (config : gmap string V) (key : string)
    (default_value : V) : V :=
  match config !! key with
  | Some v => v
  | None => default_value
  end.

(** Lines 174-176 of vuegraf.py, over the integer entries of the
    configuration file: [max_history_days], [history_days] and [history]. *)
Definition max_history_days (config : gmap string Z) : Z :=
  get_config_value config "maxHistoryDays" 720.

Definition history_days (historydays : Z) (config : gmap string Z) : Z :=
  Z.min historydays (max_history_days config).

Definition history_requested (historydays : Z) (config : gmap string Z) : bool :=
  history_days historydays config >? 0.

(** ** The collection loop of [main] *)

(** The sub-windows of the historical backfill (lines 269-286), on the wall
    clock of the account's zone: the end of the window that starts at
    [history_start_time], and the start of the window after it. *)
Definition history_end_of (history_start_time stop_time_history : datetime)
    : datetime :=
  replace_day_end
    (Z.min (history_start_time + timedelta.days 20) stop_time_history).

Definition history_next_start (history_end_time : datetime) : datetime :=
  replace_midnight (history_end_time + timedelta.days 1).

(** [stop_time_history - datetime.timedelta(history_days)], at midnight. *)
Definition history_first_start (stop_time_history : datetime) (days : Z)
    : datetime :=
  replace_midnight (stop_time_history - timedelta.days days).

(** The pairs [(history_start_time, history_end_time)] the loop
    [while history_start_time <= stop_time_history] goes through while
    [config.running] holds; [None] when [fuel] rounds do not reach its end. *)
Fixpoint history_windows (fuel : nat)
    (history_start_time stop_time_history : datetime)
    : option (list (datetime * datetime)) :=
  match fuel with
  | O => None
  | S fuel =>
      if history_start_time <=? stop_time_history then
        let history_end_time :=
          history_end_of history_start_time stop_time_history in
        match history_windows fuel (history_next_start history_end_time)
                stop_time_history with
        | Some ws => Some ((history_start_time, history_end_time) :: ws)
        | None => None
        end
      else Some []
  end.

Section Main.
Context {Vue Sink : Type} `{MeteringApi Vue} `{SinkClient Sink} `{Locale}.
Variable cfg : settings.

(** [account['vue'].get_device_list_usage(device_gids, t, scale, unit=KWH)] *)
Definition device_list_usage (acct : account) (t : datetime) (scale : Scale)
    : @M Vue Sink (option (list (Z * VueUsageDevice))) :=
  fun w =>
    let '(r, v) := get_device_list_usage (vue w) acct t scale in
    let w' := set_vue v [] w in
    match r with
    | inl e => (Raised e, w')
    | inr x => (Ok x, w')
    end.

(** The flush: the batch goes to the sink unless [--dryrun] is set
    (lines 288-296 and 305-313). *)
Definition submit (acct : account) : @M Vue Sink unit :=
  fun w =>
    if dryrun cfg then (Ok tt, w)
    else
      let '(r, s) := write_points (influx w) (usage_data_points w) in
      let w' := set_influx s (name acct, usage_data_points w) w in
      match r with
      | Some e => (Raised e, w')
      | None => (Ok tt, w')
      end.

(** [for gid, dev in usages.items()], which raises when [usages] is
    [None]. *)
Definition extract_usages (fuel : nat) (acct : account)
    (usages : option (list (Z * VueUsageDevice)))
    (stop_time : datetime) (collect_details : bool)
    (point_type : option string)
    (history_start_time history_end_time : option datetime)
    : @M Vue Sink unit :=
  match usages with
  | None => raise AttributeError
  | Some usages =>
      w <- get_world ;;
      extract_all cfg fuel acct usages stop_time (detailed_start_time w)
        collect_details point_type history_start_time history_end_time
  end.

(** The historical backfill (lines 271-298); [offset] is the offset of
    [stop_time_history], which every window carries. *)
Fixpoint history_loop (fuel : nat) (acct : account)
    (usages : option (list (Z * VueUsageDevice)))
    (stop_time : datetime) (collect_details : bool) (offset : Z)
    (history_start_time stop_time_history : datetime)
    : @M Vue Sink unit :=
  match fuel with
  | O => out_of_fuel
  | S fuel =>
      if history_start_time <=? stop_time_history then
        let history_end_time :=
          history_end_of history_start_time stop_time_history in
        extract_usages fuel acct usages stop_time collect_details
          (Some "History")
          (Some (history_start_time - offset))
          (Some (history_end_time - offset)) ;;
        w <- get_world ;;
        if negb (running w) then ret tt
        else
          let history_start_time := history_next_start history_end_time in
          submit acct ;;
          clear_points ;;
          history_loop fuel acct usages stop_time collect_details offset
            history_start_time stop_time_history
      else ret tt
  end.

(** The body of [try:] for one account (lines 223-317); the result tells
    whether the loop over the accounts goes on ([false]: [break]). *)
Definition account_pass (fuel : nat) (acct : account) (days : Z)
    (now stop_time : datetime) (collect_details : bool)
    : @M Vue Sink bool :=
  usages <- device_list_usage acct stop_time MINUTE ;;
  match usages with
  | Some _ =>
      extract_usages fuel acct usages stop_time collect_details
        None None None
  | None => ret tt
  end ;;
  usages <-
    (if collect_details && detailed_hours_enabled cfg then
       let past_hour := replace_minute0 (stop_time - timedelta.hours 1) in
       usages <- device_list_usage acct past_hour HOUR ;;
       match usages with
       | Some _ =>
           extract_usages fuel acct usages stop_time collect_details
             (Some (tag_value_hour cfg)) (Some past_hour) None
       | None => ret tt
       end ;;
       ret usages
     else ret usages) ;;
  w <- get_world ;;
  usages <-
    (if negb (day (wall (past_day w)) =? day (now + utcoffset now)) then
       usages <- device_list_usage acct (to_utc (past_day w)) DAY ;;
       match usages with
       | Some _ =>
           extract_usages fuel acct usages stop_time collect_details
             (Some (tag_value_day cfg)) (Some (to_utc (past_day w))) None
       | None => ret tt
       end ;;
       modify (set_past_day
                 {| wall := replace_day_end (now + utcoffset now);
                    utcoff := utcoffset now |}) ;;
       ret usages
     else ret usages) ;;
  w <- get_world ;;
  (if history w then
     let offset := utcoffset stop_time in
     let stop_time_history := stop_time + offset in
     history_loop fuel acct usages stop_time collect_details offset
       (history_first_start stop_time_history days) stop_time_history ;;
     modify (set_history false)
   else ret tt) ;;
  w <- get_world ;;
  if negb (running w) then ret false
  else
    (if negb (history_run w) then submit acct else ret tt) ;;
    w <- get_world ;;
    (if negb (history w) && history_run w
     then modify (set_history_run false) else ret tt) ;;
    ret true.

(** [for account in cfg['accounts']: try: ... except Exception: ...]; the
    handler logs the error and the loop goes on with the next account.  The
    accounts are taken as logged in (lines 216-220 run once per account). *)
Fixpoint accounts_loop (fuel : nat) (accounts : list account) (days : Z)
    (now stop_time : datetime) (collect_details : bool)
    : @M Vue Sink unit :=
  match accounts with
  | [] => ret tt
  | acct :: accounts =>
      go_on <- try_except
                 (account_pass fuel acct days now stop_time collect_details)
                 (ret true) ;;
      if go_on : bool
      then accounts_loop fuel accounts days now stop_time collect_details
      else ret tt
  end.

(** One round of [while config.running] (lines 205-324), the clock
    reading [now]. *)
Definition cycle (fuel : nat) (accounts : list account) (days : Z)
    (now : datetime) : @M Vue Sink unit :=
  clear_points ;;
  w <- get_world ;;
  let stop_time := now - timedelta.seconds (lag_secs cfg) in
  let seconds_since_last_detail_collection :=
    stop_time - detailed_start_time w in
  let collect_details :=
    detailed_data_enabled cfg && (detailed_interval_secs cfg >? 0)
    && (seconds_since_last_detail_collection >=? detailed_interval_secs cfg) in
  accounts_loop fuel accounts days now stop_time collect_details ;;
  if collect_details
  then modify (set_detailed_start_time (stop_time + timedelta.seconds 1))
  else ret tt.
End Main.

(** The state [main] enters its loop with (lines 173-202): the history
    request decides [history] and [history_run], the detailed collection
    counts from [startup_time], [past_day] is the end of the local day. *)
Definition startup {Vue Sink : Type} `{Locale}
    (historydays : Z) (config : gmap string Z) (startup_time : datetime)
    (session : Vue) (database : Sink) : world Vue Sink :=
  let history := history_requested historydays config in
  {| usage_data_points := [];
     history := history;
     history_run := history;
     past_day :=
       {| wall := replace_day_end (startup_time + utcoffset startup_time);
          utcoff := utcoffset startup_time |};
     detailed_start_time := startup_time;
     vue := session; chart_calls := []; influx := database;
     write_log := []; running := true |}.

(** ** Vocabulary of the properties *)

(** The windows [ws] tile the seconds from [start] to [final], in order,
    with neither gap nor overlap: each is a closed range of whole seconds
    that starts one second after the one before it ends. *)
Fixpoint tiles (start : datetime) (ws : list (datetime * datetime))
    (final : datetime) : Prop :=
  match ws with
  | [] => start = final + 1
  | (s, e) :: ws => s = start /\ s <= e /\ tiles (e + 1) ws final
  end.

(** The closed window [w] holds the second [t]. *)
Definition covers (t : datetime) (w : datetime * datetime) : bool :=
  (fst w <=? t) && (t <=? snd w).

(** The catch-up loop as the specification words it, in words of its own:
    from the window [start], [stop_min] and the world [w] to the way the
    loop ends and the world it leaves.  Every round sends one MINUTE request
    for the window.  A fetch with a sample that is not [None] emits points
    and ends the loop.  A fetch with only [None] samples emits nothing, and
    either ends the loop, when the end of the window has reached the stop
    time floored to the minute, or moves the window forward by its own
    span, both ends capped at that floored stop time, and fetches again.
    The loop raises nothing of its own: it ends with an exception only when
    the API refuses a request, and then with that exception. *)
Section CatchUpSpec.
Context {Vue Sink : Type} `{MeteringApi Vue}.
Variables (acct : account) (chan : VueDeviceChannelUsage)
          (stop_time : datetime).

Definition fetched_world (start stop_min : datetime) (v : Vue)
    (w : world Vue Sink) : world Vue Sink :=
  set_vue v [{| call_channel := chan; call_start := start;
                call_stop := stop_min; call_scale := MINUTE |}] w.

Inductive catch_up_spec
    : datetime -> datetime -> world Vue Sink ->
      result unit * world Vue Sink -> Prop :=
| catch_up_data start stop_min w usage usage_start_time v kwh_usage ps :
    get_chart_usage (vue w) acct chan start stop_min MINUTE
    = (inr (usage, usage_start_time), v) ->
    In (Some kwh_usage) usage ->
    ps <> [] ->
    catch_up_spec start stop_min w
      (Ok tt,
       set_usage_data_points (usage_data_points w ++ ps)
         (fetched_world start stop_min v w))
| catch_up_offline start stop_min w usage usage_start_time v :
    get_chart_usage (vue w) acct chan start stop_min MINUTE
    = (inr (usage, usage_start_time), v) ->
    (forall sample, In sample usage -> sample = None) ->
    replace_second0 stop_time <= stop_min ->
    catch_up_spec start stop_min w (Ok tt, fetched_world start stop_min v w)
| catch_up_advance start stop_min w usage usage_start_time v out :
    get_chart_usage (vue w) acct chan start stop_min MINUTE
    = (inr (usage, usage_start_time), v) ->
    (forall sample, In sample usage -> sample = None) ->
    stop_min < replace_second0 stop_time ->
    catch_up_spec
      (Z.min (start + (stop_min - start)) (replace_second0 stop_time))
      (Z.min (stop_min + (stop_min - start)) (replace_second0 stop_time))
      (fetched_world start stop_min v w) out ->
    catch_up_spec start stop_min w out
| catch_up_refused start stop_min w e v :
    get_chart_usage (vue w) acct chan start stop_min MINUTE = (inl e, v) ->
    catch_up_spec start stop_min w
      (Raised e, fetched_world start stop_min v w).
End CatchUpSpec.

(** ** Concrete collaborators

    A sink, an API and a time zone small enough to run the definitions on:
    the runs below use them. *)
Module Fixture.

(** A sink that answers every query with [last] and whose next writes
    fail or not as [failures] says ([true]: the write raises). *)
Record sink := { last : option datetime; failures : list bool }.

#[global] Instance sink_client : SinkClient sink := {|
  last_record_time := fun s _ _ _ _ _ => last s;
  write_points := fun s _ =>
    match failures s with
    | true :: rest => (Some SinkError, {| last := last s; failures := rest |})
    | false :: rest => (None, {| last := last s; failures := rest |})
    | [] => (None, s)
    end
|}.

(** An API that answers every chart request with the samples [chart],
    starting at the requested start, and every device-list request for
    the account [a] with [devices a]. *)
Record api := {
  chart : list (option float);
  devices : string -> list (Z * VueUsageDevice)
}.

#[global] Instance metering_api : MeteringApi api := {|
  get_chart_usage := fun v _ _ start _ _ => (inr (chart v, start), v);
  get_device_list_usage := fun v a _ _ => (inr (Some (devices v (name a))), v)
|}.

(** UTC; days are counted from the epoch. *)
#[global] Instance locale : Locale := {|
  utcoffset := fun _ => 0;
  day := fun t => t / 86400
|}.

(** The defaults of vuegraf.py for the tags and the intervals, detailed
    collection on. *)
Definition cfg : settings := {|
  influx_version := 1;
  tag_name := "detailed";
  tag_value_minute := "False";
  tag_value_second := "True";
  tag_value_hour := "Hour";
  tag_value_day := "Day";
  add_station_field := false;
  detailed_interval_secs := 3600;
  detailed_data_enabled := true;
  detailed_seconds_enabled := true;
  detailed_hours_enabled := true;
  lag_secs := 5;
  dryrun := false
|}.

Definition empty_sink : sink := {| last := None; failures := [] |}.
Definition sink_at (t : datetime) : sink := {| last := Some t; failures := [] |}.

(** 2023-11-14T22:13:20Z *)
Definition T0 : datetime := 1700000000.

(** The world at startup, with no history asked for. *)
Definition world_at (t : datetime) (v : api) (s : sink) : world api sink :=
  startup 0 ∅ t v s.

(** An API with no chart data and no device. *)
Definition silent : api := {| chart := []; devices := fun _ => [] |}.


(** A device whose only channel is [chan_num], with usage [kwh]. *)
Definition one_channel (gid : Z) (chan_num : string) (kwh : float)
    : VueUsageDevice :=
  mkDevice gid [(chan_num, mkChannel gid chan_num (Some kwh) [])].

(** An API whose accounts have one device, with the aggregate channel
    "Balance" as its only channel. *)
Definition aggregate_only : api :=
  {| chart := [];
     devices := fun _ => [(1, one_channel 1 "Balance" 0.125%float)] |}.

(** Two accounts, one single-channel device each. *)
Definition account_A : account := {| name := "A" |}.
Definition account_B : account := {| name := "B" |}.
Definition two_accounts : api :=
  {| chart := [];
     devices := fun a =>
       if String.eqb a "A" then [(1, one_channel 1 "1" 0.5%float)]
       else [(2, one_channel 2 "1" 0.25%float)] |}.

End Fixture.

(** ** Vocabulary of the properties of a pass *)

Section Frames.
Context {Vue Sink : Type}.

(** From [w] to [w'] the buffer and the record of chart requests have only
    grown, by points that satisfy [P] and requests that satisfy [Q]; the
    sink, the variables of the loop and the running flag are as they
    were. *)
Definition extends (P : data_point -> Prop) (Q : chart_call -> Prop)
    (w w' : world Vue Sink) : Prop :=
  (exists ps : list data_point,
     usage_data_points w' = (usage_data_points w ++ ps)%list /\ Forall P ps)
  /\ (exists cs : list chart_call,
        chart_calls w' = (chart_calls w ++ cs)%list /\ Forall Q cs)
  /\ history w' = history w
  /\ history_run w' = history_run w
  /\ past_day w' = past_day w
  /\ detailed_start_time w' = detailed_start_time w
  /\ influx w' = influx w
  /\ write_log w' = write_log w
  /\ running w' = running w.

(** The sink is as it was: same state, same batches received. *)
Definition sink_untouched (w w' : world Vue Sink) : Prop :=
  influx w' = influx w /\ write_log w' = write_log w.


End Frames.

(** What every point of a pass for the account [acct] looks like, and which
    chart requests a pass with the given mode may send. *)
Definition pass_point (cfg : settings) (acct : account) (p : data_point)
    : Prop :=
  p_account_name p = name acct
  /\ p_tag_name p = tag_name cfg
  /\ (p_detailed p = tag_value_minute cfg
      \/ p_detailed p = tag_value_second cfg
      \/ p_detailed p = tag_value_hour cfg
      \/ p_detailed p = tag_value_day cfg).

Definition pass_call (cfg : settings) (collect_details : bool)
    (point_type : option string)
    (history_start_time history_end_time : option datetime)
    (c : chart_call) : Prop :=
  match call_scale c with
  | MINUTE => point_type = None /\ history_start_time = None
  | SECOND =>
      collect_details = true /\ detailed_seconds_enabled cfg = true
      /\ history_start_time = None
  | HOUR | DAY =>
      history_start_time = Some (call_start c)
      /\ history_end_time = Some (call_stop c)
  end.

(** What the loop over the accounts keeps from the world [w] to the world
    [w']: the running flag and the start of the detailed collection; and the
    sink too, when the run is a dry run or the running flag is off. *)
Definition loop_frame {Vue Sink : Type} (cfg : settings)
    (w w' : world Vue Sink) : Prop :=
  running w' = running w
  /\ detailed_start_time w' = detailed_start_time w
  /\ (dryrun cfg = true \/ running w = false -> sink_untouched w w').

(** ** Devices and names, device.py *)

(** A device of the account and its channels, as [get_devices] and
    [populate_device_properties] return them. *)
Record VueDeviceChannel := {
  dc_device_gid : Z;
  dc_name : option string;
  dc_channel_num : string
}.

Record VueDevice := {
  dv_device_gid : Z;
  dv_device_name : string;
  dv_channels : list VueDeviceChannel
}.

(** The device calls of the API; each answers or raises. *)
Class DeviceApi (Vue : Type) := {
  get_devices : Vue -> (exn + list VueDevice) * Vue;
  populate_device_properties : Vue -> VueDevice -> (exn + VueDevice) * Vue
}.

(** Python's [int(s)] on a string: the number, or [None] for
    [ValueError]. *)
Class Python := { py_int : string -> option Z }.

(** An entry of [account['devices']] in the configuration file: an optional
    name, and optional channel names given as a list, as a mapping from
    channel numbers, or as something else. *)
Inductive channels_cfg :=
| ChannelList (names : list string)
| ChannelDict (names : gmap string string)
| ChannelOther.

Record device_cfg := {
  cfg_name : option string;
  cfg_channels : option channels_cfg
}.

(** The part of the account dict device.py works on: the two maps, the
    configured devices when the key is there, the session and the number
    of device lists it was asked for. *)
Record registry {Vue : Type} := {
  deviceIdMap : gmap Z VueDevice;
  channelIdMap : gmap string VueDeviceChannel;
  configured : option (list device_cfg);
  session : Vue;
  device_requests : nat
}.
Arguments registry : clear implicits.

(** [l[i]] for a Python list: a negative index counts from the end;
    [None] is [IndexError]. *)
Definition py_index {A : Type} (l : list A) (i : Z) : option A :=
  if 0 <=? i then l !! Z.to_nat i
  else if - i <=? Z.of_nat (length l)
       then l !! Z.to_nat (Z.of_nat (length l) + i)
       else None.

(** ['{}-{}'.format(a, b)] for an int and a string. *)
Definition dash (a : Z) (b : string) : string := pretty a +:+ "-" +:+ b.

Module Device.
Section Devices.
Context {Vue : Type} `{DeviceApi Vue} `{Python}.

(** The renaming of the channel loop of [populate_devices]: the channel
    object is changed in place, so the device stored in [deviceIdMap] shows
    the new name too. *)
Definition name_channel (device_name : string) (chan : VueDeviceChannel)
    : VueDeviceChannel :=
  match dc_name chan with
  | None =>
      if String.eqb (dc_channel_num chan) "1,2,3"
      then {| dc_device_gid := dc_device_gid chan;
              dc_name := Some device_name;
              dc_channel_num := dc_channel_num chan |}
      else chan
  | Some _ => chan
  end.

Definition name_channels (device : VueDevice) : VueDevice :=
  {| dv_device_gid := dv_device_gid device;
     dv_device_name := dv_device_name device;
     dv_channels := map (name_channel (dv_device_name device))
                        (dv_channels device) |}.

(** [for chan in device.channels: ... channel_id_map[key] = chan] *)
Fixpoint index_channels (gid : Z) (chans : list VueDeviceChannel)
    (channel_id_map : gmap string VueDeviceChannel)
    : gmap string VueDeviceChannel :=
  match chans with
  | [] => channel_id_map
  | chan :: chans =>
      index_channels gid chans
        (<[dash gid (dc_channel_num chan) := chan]> channel_id_map)
  end.

(** [for device in devices: ...] of [populate_devices]. *)
Fixpoint populate_loop (devices : list VueDevice) (r : registry Vue)
    : result unit * registry Vue :=
  match devices with
  | [] => (Ok tt, r)
  | device :: devices =>
      match populate_device_properties (session r) device with
      | (inl e, v) =>
          (Raised e,
           {| deviceIdMap := deviceIdMap r; channelIdMap := channelIdMap r;
              configured := configured r; session := v;
              device_requests := device_requests r |})
      | (inr device, v) =>
          let device := name_channels device in
          populate_loop devices
            {| deviceIdMap :=
                 <[dv_device_gid device := device]> (deviceIdMap r);
               channelIdMap :=
                 index_channels (dv_device_gid device) (dv_channels device)
                   (channelIdMap r);
               configured := configured r; session := v;
               device_requests := device_requests r |}
      end
  end.

(** [populate_devices]: both maps are emptied first, then the device list
    is asked for. *)
Definition populate_devices (r : registry Vue) : result unit * registry Vue :=
  let '(answer, v) := get_devices (session r) in
  let r :=
    {| deviceIdMap := ∅; channelIdMap := ∅;
       configured := configured r; session := v;
       device_requests := S (device_requests r) |} in
  match answer with
  | inl e => (Raised e, r)
  | inr devices => populate_loop devices r
  end.

(** [if gid not in account['deviceIdMap']: populate_devices(account)] *)
Definition ensure_known (gid : Z) (r : registry Vue)
    : result unit * registry Vue :=
  match deviceIdMap r !! gid with
  | None => populate_devices r
  | Some _ => (Ok tt, r)
  end.

Definition lookup_device_name (r : registry Vue) (device_gid : Z)
    : result string * registry Vue :=
  match ensure_known device_gid r with
  | (Ok _, r) =>
      let device_name := pretty device_gid in
      let device_name :=
        match deviceIdMap r !! device_gid with
        | Some device => dv_device_name device
        | None => device_name
        end in
      (Ok device_name, r)
  | (Raised e, r) => (Raised e, r)
  | (OutOfFuel, r) => (OutOfFuel, r)
  end.

(** The loop over [account['devices']] inside the [try]: the name found
    ([break]), no name, or an exception ([IndexError], [KeyError]). *)
Inductive override := Override (name : string) | NoOverride | Failed.

Fixpoint channel_override (devices : list device_cfg) (device_name : string)
    (num : Z) : override :=
  match devices with
  | [] => NoOverride
  | device :: devices =>
      match cfg_name device with
      | Some configured_name =>
          if String.eqb configured_name device_name then
            match cfg_channels device with
            | Some (ChannelList names) =>
                if num <=? Z.of_nat (length names) then
                  match py_index names (num - 1) with
                  | Some name => Override name
                  | None => Failed
                  end
                else channel_override devices device_name num
            | Some (ChannelDict names) =>
                match names !! pretty num with
                | Some name => Override name
                | None => Failed
                end
            | Some ChannelOther | None =>
                channel_override devices device_name num
            end
          else channel_override devices device_name num
      | None => channel_override devices device_name num
      end
  end.

Definition lookup_channel_name (r : registry Vue) (chan : VueDeviceChannel)
    : result string * registry Vue :=
  match ensure_known (dc_device_gid chan) r with
  | (Ok _, r) =>
      match lookup_device_name r (dc_device_gid chan) with
      | (Ok device_name, r) =>
          let name := device_name +:+ "-" +:+ dc_channel_num chan in
          let excepted :=
            if String.eqb (dc_channel_num chan) "1,2,3"
            then device_name else name in
          let name :=
            match py_int (dc_channel_num chan) with
            | None => excepted
            | Some num =>
                match configured r with
                | None => name
                | Some devices =>
                    match channel_override devices device_name num with
                    | Override name => name
                    | NoOverride => name
                    | Failed => excepted
                    end
                end
            end in
          (Ok name, r)
      | (Raised e, r) => (Raised e, r)
      | (OutOfFuel, r) => (OutOfFuel, r)
      end
  | (Raised e, r) => (Raised e, r)
  | (OutOfFuel, r) => (OutOfFuel, r)
  end.

End Devices.
End Device.

(** A channel numbered "1,2,3" has a name. *)
Definition named (chan : VueDeviceChannel) : Prop :=
  dc_channel_num chan = "1,2,3" -> dc_name chan <> None.

(** The two maps agree: a device is filed under its own gid and its
    channels are named; a channel is filed under the gid of a device of the
    map and its own number, and is named. *)
Definition registry_ok {Vue : Type} (r : registry Vue) : Prop :=
  (forall gid device,
      deviceIdMap r !! gid = Some device ->
      dv_device_gid device = gid /\ Forall named (dv_channels device))
  /\ (forall key chan,
        channelIdMap r !! key = Some chan ->
        named chan
        /\ exists gid,
             key = dash gid (dc_channel_num chan)
             /\ is_Some (deviceIdMap r !! gid)).

(** A name the configuration gives to some channel of the device called
    [device_name]. *)
Definition configured_name (devices : list device_cfg) (device_name : string)
    (name : string) : Prop :=
  exists device,
    In device devices
    /\ cfg_name device = Some device_name
    /\ match cfg_channels device with
       | Some (ChannelList names) => In name names
       | Some (ChannelDict names) => exists key, names !! key = Some name
       | _ => False
       end.

(** ** The timestamp string of the last record (lines 131-135) *)

(** [time_str[:19]], then a "Z" appended unless the string ends with one or
    has a sign six characters before its end; [None] is the [IndexError] of
    that look-up.  The string is not empty. *)
Definition normalize_time_str (time_str : list ascii) : option (list ascii) :=
  let time_str := take 19 time_str in
  if decide (last time_str = Some "Z"%char) then Some time_str
  else
    match py_index time_str (Z.of_nat (length time_str) - 6) with
    | None => None
    | Some c =>
        if decide (c = "+"%char \/ c = "-"%char) then Some time_str
        else Some (time_str ++ ["Z"%char])%list
    end.

(** ** More concrete collaborators *)
Module Scenario.

(** The settings of [Fixture.cfg] in a dry run. *)
Definition dry_cfg : settings := {|
  influx_version := 1;
  tag_name := "detailed";
  tag_value_minute := "False";
  tag_value_second := "True";
  tag_value_hour := "Hour";
  tag_value_day := "Day";
  add_station_field := false;
  detailed_interval_secs := 3600;
  detailed_data_enabled := true;
  detailed_seconds_enabled := true;
  detailed_hours_enabled := true;
  lag_secs := 5;
  dryrun := true
|}.

(** The world at startup with [days] days of history asked for. *)
Definition world_with_history (days : Z) (t : datetime) (v : Fixture.api)
    (s : Fixture.sink) : world Fixture.api Fixture.sink :=
  startup days ∅ t v s.

(** A device API that answers with the devices it holds, or raises when it
    holds none; properties are populated as they are. *)
#[global] Instance device_api : DeviceApi (list VueDevice) := {|
  get_devices := fun v =>
    match v with
    | [] => (inl ApiError, v)
    | _ => (inr v, v)
    end;
  populate_device_properties := fun v device => (inr device, v)
|}.

(** Decimal numbers of one digit. *)
#[global] Instance python : Python := {|
  py_int := fun s =>
    if String.eqb s "0" then Some 0
    else if String.eqb s "1" then Some 1
    else if String.eqb s "2" then Some 2
    else if String.eqb s "3" then Some 3
    else None
|}.

Definition panel : VueDevice :=
  {| dv_device_gid := 7; dv_device_name := "Panel";
     dv_channels :=
       [{| dc_device_gid := 7; dc_name := None; dc_channel_num := "1,2,3" |};
        {| dc_device_gid := 7; dc_name := None; dc_channel_num := "1" |}] |}.

Definition empty_registry (v : list VueDevice)
    (devices : option (list device_cfg)) : registry (list VueDevice) :=
  {| deviceIdMap := ∅; channelIdMap := ∅; configured := devices;
     session := v; device_requests := 0 |}.

End Scenario.

(** * Properties *)

(** ** The window resolver *)

(** Case analysis on every comparison of the goal. *)
Ltac cmp_cases :=
  repeat match goal with
    | |- context [Z.gtb ?a ?b] => rewrite (Z.gtb_ltb a b)
    | |- context [Z.geb ?a ?b] => rewrite (Z.geb_leb a b)
    | |- context [Z.ltb ?a ?b] => destruct (Z.ltb_spec a b)
    | |- context [Z.leb ?a ?b] => destruct (Z.leb_spec a b)
    end.

Section ResolverProperties.
Context {Sink : Type} `{SinkClient Sink}.

Lemma second_bounds (t : datetime) : 0 <= second t < 60.
Proof. unfold second. apply Z.mod_pos_bound. lia. Qed.

Lemma eqb_ne (a b : string) : a <> b -> String.eqb a b = false.
Proof. intros Hne. now apply String.eqb_neq. Qed.

(** The resolver with a stored record that does not trigger a backfill
    hands the proposed window back. *)
Lemma resolver_minute_unchanged
    dn cn start stop flag (influx : Sink) tag asf tm ts interval t :
  tm <> ts ->
  last_record_time influx tag asf dn cn tm = Some t ->
  stop - (timedelta.minutes 2 + second stop) <= t ->
  get_last_db_timestamp dn cn tm start stop flag influx tag asf tm ts interval
  = (start, stop, flag).
Proof.
  intros Hne Hlast Hle. unfold get_last_db_timestamp.
  rewrite Hlast, String.eqb_refl, (eqb_ne _ _ Hne).
  unfold timedelta.minutes, timedelta.seconds in *.
  destruct (Z.ltb_spec t (stop - (60 * 2 + second stop)));
    [lia | reflexivity].
Qed.

Lemma resolver_second_unchanged
    dn cn start stop flag (influx : Sink) tag asf tm ts interval t :
  tm <> ts ->
  last_record_time influx tag asf dn cn ts = Some t ->
  start - timedelta.seconds 2 <= t ->
  get_last_db_timestamp dn cn ts start stop flag influx tag asf tm ts interval
  = (start, stop, flag).
Proof.
  intros Hne Hlast Hle. unfold get_last_db_timestamp.
  rewrite Hlast, String.eqb_refl, (eqb_ne ts tm) by congruence.
  unfold timedelta.seconds in *.
  destruct (Z.ltb_spec t (start - 2)); [lia | reflexivity].
Qed.

(** C1 (amended).  With distinct minute and second tags and a proposed
    window with start <= stop: when the resolver decides on a backfill (the
    series has no record, or its last record is older than the trigger of
    the granularity), it reports it and returns a window with
    start <= stop, of span at most 12 hours (MINUTE) or 1 hour (SECOND),
    whose start is no earlier than its stop minus 7 days (MINUTE), 1 hour
    (SECOND, detail interval of 3600 s or more) or 3 hours (SECOND
    otherwise); when a record exists and is not older than the trigger, the
    proposed window and flag come back unchanged, whatever their span. *)
Theorem resolver_backfill_window_bounds
    dn cn pt start stop flag (influx : Sink) tag asf tm ts interval s e f :
  tm <> ts -> pt = tm \/ pt = ts -> start <= stop ->
  get_last_db_timestamp dn cn pt start stop flag influx tag asf tm ts interval
  = (s, e, f) ->
  let triggered :=
    match last_record_time influx tag asf dn cn pt with
    | None => True
    | Some t =>
        if String.eqb pt tm
        then t < stop - (timedelta.minutes 2 + second stop)
        else t < start - timedelta.seconds 2
    end in
  let span :=
    if String.eqb pt tm then timedelta.hours 12 else timedelta.hours 1 in
  let lookback :=
    if String.eqb pt tm then timedelta.days 7
    else if interval >=? 3600 then timedelta.hours 1 else timedelta.hours 3 in
  (triggered -> f = true /\ s <= e /\ e - s <= span /\ e - lookback <= s)
  /\ (~ triggered -> (s, e, f) = (start, stop, flag)).
Proof.
  intros Hne Hpt Hle Hres. pose proof (second_bounds stop) as Hsec.
  destruct Hpt as [-> | ->]; cbv zeta.
  - rewrite String.eqb_refl. revert Hres. unfold get_last_db_timestamp.
    rewrite String.eqb_refl, (eqb_ne _ _ Hne).
    unfold timedelta.days, timedelta.hours, timedelta.minutes,
      timedelta.seconds.
    destruct (last_record_time influx tag asf dn cn tm) as [t|].
    + cmp_cases; intros [= <- <- <-]; split; intros Ht; try lia;
        try (exfalso; lia); repeat split; lia.
    + intros [= <- <- <-]. split; [intros _; repeat split; lia | tauto].
  - rewrite (eqb_ne ts tm) by congruence. revert Hres.
    unfold get_last_db_timestamp.
    rewrite String.eqb_refl, (eqb_ne ts tm) by congruence.
    unfold timedelta.days, timedelta.hours, timedelta.minutes,
      timedelta.seconds.
    destruct (last_record_time influx tag asf dn cn ts) as [t|].
    + cmp_cases; intros [= <- <- <-]; split; intros Ht; try lia;
        try (exfalso; lia); repeat split; lia.
    + intros [= <- <- <-]. split; [intros _ | tauto].
      cmp_cases; repeat split; lia.
Qed.

(** C4 (amended).  For a SECOND series with no stored record the resolver
    reports a backfill and returns the window from three hours to two hours
    before the proposed start, for every detail interval (7200 s among
    them): its span is exactly one hour, and it ends two hours before the
    proposed start, not at the proposed stop. *)
Theorem second_first_window
    dn cn start stop flag (influx : Sink) tag asf tm ts interval :
  tm <> ts ->
  last_record_time influx tag asf dn cn ts = None ->
  get_last_db_timestamp dn cn ts start stop flag influx tag asf tm ts interval
  = (start - timedelta.hours 3, start - timedelta.hours 2, true)
  /\ (start - timedelta.hours 2) - (start - timedelta.hours 3)
     = timedelta.hours 1.
Proof.
  intros Hne Hlast. unfold get_last_db_timestamp.
  rewrite Hlast, String.eqb_refl, (eqb_ne ts tm) by congruence.
  unfold timedelta.hours. split; [repeat f_equal |]; lia.
Qed.

(** C7.  When the last stored MINUTE timestamp is [T0] and the proposed
    stop is [T0] + 3 minutes, the resolver reports a backfill, the adjusted
    start is [T0] + 1 minute, the adjusted stop is the proposed one, and the
    span of the window is at most 12 hours. *)
Theorem minute_three_minutes_behind
    dn cn start flag (influx : Sink) tag asf tm ts interval T0 :
  tm <> ts ->
  last_record_time influx tag asf dn cn tm = Some T0 ->
  get_last_db_timestamp dn cn tm start (T0 + timedelta.minutes 3) flag
    influx tag asf tm ts interval
  = (T0 + timedelta.minutes 1, T0 + timedelta.minutes 3, true)
  /\ (T0 + timedelta.minutes 3) - (T0 + timedelta.minutes 1)
     <= timedelta.hours 12.
Proof.
  intros Hne Hlast.
  pose proof (second_bounds (T0 + timedelta.minutes 3)) as Hsec.
  unfold get_last_db_timestamp.
  rewrite Hlast, String.eqb_refl, (eqb_ne _ _ Hne).
  unfold timedelta.hours, timedelta.minutes, timedelta.seconds in *.
  cmp_cases; try lia. split; [reflexivity | lia].
Qed.

End ResolverProperties.

(** C1, a run: a SECOND series whose last record is one second before the
    proposed start, the proposed window 3630 seconds long.  No backfill is
    triggered and the window comes back as proposed, longer than one hour. *)
Lemma resolver_span_over_one_hour :
  let '(s, e, _) :=
    get_last_db_timestamp "device" "1" "True"
      Fixture.T0 (Fixture.T0 + 3630) true
      (Fixture.sink_at (Fixture.T0 - 1)) "detailed" false "False" "True" 3600 in
  ~ (s <= e /\ e - s <= timedelta.hours 1 /\ e - timedelta.hours 1 <= s).
Proof. vm_compute. intros (_ & Hspan & _). apply Hspan. reflexivity. Qed.

Lemma resolver_backfill_window_bounds_run :
  let '(s, e, f) :=
    get_last_db_timestamp "device" "1" "False"
      Fixture.T0 Fixture.T0 false
      (Fixture.sink_at (Fixture.T0 - 1000000)) "detailed" false
      "False" "True" 3600 in
  f = true /\ s <= e /\ e - s <= timedelta.hours 12
  /\ e - timedelta.days 7 <= s.
Proof.
  refine (proj1 (resolver_backfill_window_bounds
            "device" "1" "False" Fixture.T0 Fixture.T0 false
            (Fixture.sink_at (Fixture.T0 - 1000000)) "detailed" false
            "False" "True" 3600 _ _ _ _ _ _ _) _).
  - discriminate.
  - left; reflexivity.
  - lia.
  - reflexivity.
  - vm_compute. reflexivity.
Defined.

(** C4, a run: no record, detail interval 7200 s, the proposed window the
    last two hours.  The window returned is one hour long and ends two hours
    before the proposed start. *)
Lemma second_first_window_not_at_stop :
  let '(s, e, _) :=
    get_last_db_timestamp "device" "1" "True"
      Fixture.T0 (Fixture.T0 + 7200) true
      Fixture.empty_sink "detailed" false "False" "True" 7200 in
  ~ (e - s = timedelta.hours 1 /\ e = Fixture.T0 + 7200).
Proof. vm_compute. intros [_ Hstop]. discriminate Hstop. Qed.

Lemma second_first_window_run :
  get_last_db_timestamp "device" "1" "True"
    Fixture.T0 (Fixture.T0 + 7200) true
    Fixture.empty_sink "detailed" false "False" "True" 7200
  = (Fixture.T0 - timedelta.hours 3, Fixture.T0 - timedelta.hours 2, true).
Proof.
  refine (proj1 (second_first_window "device" "1" Fixture.T0
            (Fixture.T0 + 7200) true Fixture.empty_sink "detailed" false
            "False" "True" 7200 _ _)).
  - discriminate.
  - reflexivity.
Defined.

Lemma minute_three_minutes_behind_run :
  get_last_db_timestamp "device" "1" "False"
    (Fixture.T0 + 180) (Fixture.T0 + timedelta.minutes 3) false
    (Fixture.sink_at Fixture.T0) "detailed" false "False" "True" 3600
  = (Fixture.T0 + timedelta.minutes 1, Fixture.T0 + timedelta.minutes 3, true).
Proof.
  refine (proj1 (minute_three_minutes_behind "device" "1" (Fixture.T0 + 180)
            false (Fixture.sink_at Fixture.T0) "detailed" false
            "False" "True" 3600 Fixture.T0 _ _)).
  - discriminate.
  - reflexivity.
Defined.

(** ** The history request *)

(** C10.  The number of days of history used is the minimum of the days
    asked for on the command line and of [maxHistoryDays] (720 when the
    configuration has no such entry); the backfill flags [history] and
    [history_run] of the loop are set exactly when that minimum is positive;
    a request above the cap is cut down to the cap. *)
Theorem history_days_capped
    {Vue Sink : Type} `{Locale} (historydays : Z) (config : gmap string Z)
    (startup_time : datetime) (session : Vue) (database : Sink) :
  let cap := default 720 (config !! "maxHistoryDays") in
  let w := startup historydays config startup_time session database in
  history_days historydays config = Z.min historydays cap
  /\ max_history_days (delete "maxHistoryDays" config) = 720
  /\ (history w = true <-> 0 < Z.min historydays cap)
  /\ history_run w = history w
  /\ (cap <= historydays <-> history_days historydays config = cap).
Proof.
  cbv zeta. unfold history_days, max_history_days, get_config_value; simpl.
  unfold history_requested, history_days, max_history_days, get_config_value.
  rewrite lookup_delete_eq.
  destruct (config !! "maxHistoryDays") as [cap|]; simpl;
    (repeat split; try reflexivity; try lia).
Qed.

(** ** Historical sub-batching *)

Section HistoryWindows.

Ltac euclid := Z.to_euclidean_division_equations; lia.

(** One round of the loop from a midnight [start] not after [stop]. *)
Lemma history_round (start stop : datetime) :
  start mod 86400 = 0 -> start <= stop ->
  let e := history_end_of start stop in
  e mod 86400 = 86399
  /\ start + 86399 <= e <= start + timedelta.days 21 - 1
  /\ e <= replace_day_end stop
  /\ history_next_start e = e + 1
  /\ (e + 1) mod 86400 = 0
  /\ (stop < e + 1 -> e = replace_day_end stop)
  /\ (e + 1 <= stop -> e = start + timedelta.days 21 - 1).
Proof.
  intros Hmid Hle.
  unfold history_end_of, history_next_start, replace_day_end,
    replace_midnight, timedelta.days.
  destruct (Z.min_spec (start + 86400 * 20) stop) as [[Hlt ->] | [Hge ->]];
    cbv zeta; repeat split; try euclid.
Qed.

Lemma tiles_bound start ws final : tiles start ws final -> start <= final + 1.
Proof.
  revert start. induction ws as [|[s e] ws IH]; simpl; intros start.
  - lia.
  - intros (-> & Hse & Hrest). apply IH in Hrest. lia.
Qed.

Lemma tiles_last start ws final :
  tiles start ws final -> ws <> [] ->
  exists s, last ws = Some (s, final).
Proof.
  revert start. induction ws as [|[s e] ws IH]; simpl; intros start.
  - congruence.
  - intros (-> & Hse & Hrest) _. destruct ws as [|w ws].
    + simpl in Hrest. exists start. simpl. do 2 f_equal. lia.
    + destruct (IH _ Hrest) as [s' Hs']; [congruence |].
      exists s'. rewrite last_cons, Hs'. reflexivity.
Qed.

Lemma tiles_consecutive start ws final i s e s' e' :
  tiles start ws final ->
  ws !! i = Some (s, e) -> ws !! S i = Some (s', e') ->
  s' = e + 1 /\ e < final.
Proof.
  revert start i. induction ws as [|[s0 e0] ws IH]; intros start i.
  - intros _ Hi. discriminate Hi.
  - simpl. intros (-> & Hse & Hrest). destruct i as [|i].
    + intros [= <- <-] Hnext. destruct ws as [|[s1 e1] ws]; [discriminate|].
      simpl in Hnext. injection Hnext as <- <-.
      simpl in Hrest. destruct Hrest as (-> & Hle & Hrest).
      apply tiles_bound in Hrest. lia.
    + intros Hi Hnext. exact (IH _ _ Hrest Hi Hnext).
Qed.

Lemma tiles_cover start ws final t :
  tiles start ws final ->
  length (List.filter (covers t) ws)
  = if (start <=? t) && (t <=? final) then 1%nat else 0%nat.
Proof.
  revert start. induction ws as [|[s e] ws IH]; simpl; intros start.
  - intros ->. cmp_cases; simpl; try reflexivity; lia.
  - intros (-> & Hse & Hrest). pose proof (tiles_bound _ _ _ Hrest) as Hb.
    rewrite <- Nat.add_1_r. unfold covers at 1; simpl.
    specialize (IH _ Hrest). revert IH.
    cmp_cases; simpl; intros ->; try reflexivity; lia.
Qed.

(** The loop from a midnight ends within [n] rounds when fewer than [n]
    days separate that midnight from the end of the day of [stop], and its
    windows tile the range up to that end of day. *)
Lemma history_windows_tiles (stop : datetime) (n : nat) :
  forall start,
    start mod 86400 = 0 ->
    start <= stop + 86400 ->
    stop + 86400 - start < Z.of_nat n * 86400 ->
    exists ws,
      history_windows n start stop = Some ws
      /\ (start <= stop -> ws <> [])
      /\ (stop < start -> ws = [])
      /\ (start <= stop -> tiles start ws (replace_day_end stop))
      /\ Forall (fun w =>
                   fst w mod 86400 = 0 /\ snd w mod 86400 = 86399
                   /\ snd w - fst w <= timedelta.days 21 - 1
                   /\ (snd w < replace_day_end stop ->
                       snd w - fst w = timedelta.days 21 - 1)) ws.
Proof.
  induction n as [|n IH]; intros start Hmid Hup Hfuel; [lia |].
  simpl. destruct (Z.leb_spec start stop) as [Hle | Hgt].
  - destruct (history_round start stop Hmid Hle)
      as (Hend & Hspan & Hcap & Hnext & Hmid' & Hlast & Hfull).
    set (e := history_end_of start stop) in *. rewrite Hnext.
    destruct (IH (e + 1)) as (ws & -> & Hne & Hnil & Htiles & Hall).
    + exact Hmid'.
    + unfold replace_day_end in Hcap. euclid.
    + lia.
    + exists ((start, e) :: ws).
      split; [reflexivity |]. split; [congruence |].
      split; [lia |]. split.
      * intros _. simpl. split; [reflexivity |]. split; [lia |].
        destruct (Z.le_gt_cases (e + 1) stop) as [Hmore | Hdone].
        -- apply Htiles; lia.
        -- rewrite Hnil by lia. simpl. rewrite Hlast by lia. reflexivity.
      * constructor; [| exact Hall]. simpl.
        split; [exact Hmid |]. split; [exact Hend |]. split; [lia |].
        intros Hlt. destruct (Z.le_gt_cases (e + 1) stop) as [Hmore | Hdone].
        -- rewrite Hfull by lia. lia.
        -- rewrite Hlast in Hlt by lia. lia.
  - exists []. split; [reflexivity |]. split; [lia |].
    split; [reflexivity |]. split; [lia | constructor].
Qed.

Lemma tiles_ordered start ws final :
  tiles start ws final -> Forall (fun w => fst w <= snd w) ws.
Proof.
  revert start. induction ws as [|[s e] ws IH]; simpl; intros start.
  - constructor.
  - intros (-> & Hse & Hrest). constructor; [exact Hse | eauto].
Qed.

(** C3 (amended).  For every number of days (0 or more) and every stop
    time, on the wall clock of the account's zone, the backfill loop ends
    and goes through windows such that: the first starts at local midnight
    of the day [days] before the stop; every window starts at local
    midnight, ends at 23:59:59 and spans at most 21 days less a second (21
    calendar days); a window that has a successor spans exactly that, and
    its successor starts at the midnight one second after it ends; the last
    window ends at 23:59:59 of the day of the stop; every second from the
    first midnight to that end of day lies in exactly one window, and no
    other second lies in any. *)
Theorem history_windows_partition (days : Z) (stop : datetime) :
  0 <= days ->
  exists fuel ws,
    history_windows fuel (history_first_start stop days) stop = Some ws
    /\ (exists e, ws !! 0%nat = Some (history_first_start stop days, e))
    /\ (forall i s e, ws !! i = Some (s, e) ->
          s = replace_midnight s /\ e = replace_day_end e
          /\ s <= e /\ e - s <= timedelta.days 21 - 1)
    /\ (forall i s e s' e',
          ws !! i = Some (s, e) -> ws !! S i = Some (s', e') ->
          s' = e + 1 /\ s' = history_next_start e
          /\ e - s = timedelta.days 21 - 1)
    /\ (exists s, last ws = Some (s, replace_day_end stop))
    /\ (forall t,
          length (List.filter (covers t) ws)
          = if (history_first_start stop days <=? t)
               && (t <=? replace_day_end stop)
            then 1%nat else 0%nat).
Proof.
  intros Hdays. set (start := history_first_start stop days).
  assert (Hmid : start mod 86400 = 0).
  { unfold start, history_first_start, replace_midnight. euclid. }
  assert (Hle : start <= stop).
  { unfold start, history_first_start, replace_midnight, timedelta.days.
    euclid. }
  destruct (history_windows_tiles stop (Z.to_nat days + 3) start Hmid)
    as (ws & Hws & Hne & _ & Htiles & Hall).
  { lia. }
  { unfold start, history_first_start, replace_midnight, timedelta.days.
    euclid. }
  specialize (Hne Hle). specialize (Htiles Hle).
  pose proof (tiles_ordered _ _ _ Htiles) as Hord.
  rewrite Forall_lookup in Hall, Hord.
  exists (Z.to_nat days + 3)%nat, ws. split; [exact Hws |].
  split; [| split; [| split; [| split]]].
  - destruct ws as [|[s e] ws]; [congruence |].
    simpl in Htiles. destruct Htiles as (-> & _). exists e. reflexivity.
  - intros i s e Hi.
    destruct (Hall _ _ Hi) as (Hs & He & Hspan & _). simpl in *.
    specialize (Hord _ _ Hi). simpl in Hord.
    unfold replace_midnight, replace_day_end. lia.
  - intros i s e s' e' Hi Hnext.
    destruct (tiles_consecutive _ _ _ _ _ _ _ _ Htiles Hi Hnext)
      as [-> Hlt].
    destruct (Hall _ _ Hi) as (_ & He & _ & Hfull). simpl in *.
    split; [reflexivity |]. split; [| exact (Hfull Hlt)].
    unfold history_next_start, replace_midnight, timedelta.days. euclid.
  - exact (tiles_last _ _ _ Htiles Hne).
  - intros t. exact (tiles_cover _ _ _ t Htiles).
Qed.

End HistoryWindows.

(** C3, a run: 30 days of history asked for at 22:13:20.  The first window
    is 21 calendar days long, and the last one ends at 23:59:59 of the day
    of the stop, not at the stop. *)
Lemma history_windows_longer_and_later :
  exists ws,
    history_windows 5 (history_first_start Fixture.T0 30) Fixture.T0 = Some ws
    /\ ~ Forall (fun w => snd w - fst w <= timedelta.days 20) ws
    /\ ~ (exists s, last ws = Some (s, Fixture.T0)).
Proof.
  eexists. split; [vm_compute; reflexivity |]. split.
  - intros Hall. apply Forall_inv in Hall. vm_compute in Hall.
    apply Hall. reflexivity.
  - intros [s Hlast]. vm_compute in Hlast. discriminate Hlast.
Qed.

Lemma history_windows_partition_run :
  exists fuel ws,
    history_windows fuel (history_first_start Fixture.T0 30) Fixture.T0
    = Some ws
    /\ (exists e, ws !! 0%nat = Some (history_first_start Fixture.T0 30, e))
    /\ (forall i s e, ws !! i = Some (s, e) ->
          s = replace_midnight s /\ e = replace_day_end e
          /\ s <= e /\ e - s <= timedelta.days 21 - 1)
    /\ (forall i s e s' e',
          ws !! i = Some (s, e) -> ws !! S i = Some (s', e') ->
          s' = e + 1 /\ s' = history_next_start e
          /\ e - s = timedelta.days 21 - 1)
    /\ (exists s, last ws = Some (s, replace_day_end Fixture.T0))
    /\ (forall t,
          length (List.filter (covers t) ws)
          = if (history_first_start Fixture.T0 30 <=? t)
               && (t <=? replace_day_end Fixture.T0)
            then 1%nat else 0%nat).
Proof.
  apply (history_windows_partition 30 Fixture.T0). lia.
Defined.

(** The backfill loop goes through exactly these windows: a run over an
    empty usage answer, 30 days of history, flushes once per window of the
    schedule and leaves the buffer empty. *)
Lemma history_loop_follows_windows :
  let w :=
    snd (history_loop Fixture.cfg 5 Fixture.account_A (Some [])
           Fixture.T0 false 0
           (history_first_start Fixture.T0 30) Fixture.T0
           (Fixture.world_at Fixture.T0 Fixture.silent
              (Fixture.sink_at Fixture.T0))) in
  Some (length (write_log w))
  = length <$> history_windows 5 (history_first_start Fixture.T0 30)
                 Fixture.T0
  /\ length (write_log w) = 2%nat
  /\ usage_data_points w = [].
Proof. vm_compute. repeat split. Qed.

(** ** Usage sequences *)

Section UsageSequences.
Context `{Locale}.
Variable cfg : settings.

(** A skipped entry moves the index on. *)
Lemma for_usage_skip point usage index :
  for_usage point (None :: usage) index = for_usage point usage (index + 1).
Proof. reflexivity. Qed.

(** The points of a sequence are those of its present entries, each built
    from its position. *)
Lemma for_usage_elem point usage index (p : data_point) :
  p ∈ for_usage point usage index
  <-> exists (i : nat) k,
        usage !! i = Some (Some k) /\ p = point (index + Z.of_nat i) k.
Proof.
  revert index. induction usage as [|[k|] usage IH]; intros index; simpl.
  - split; [intros Hin; inversion Hin | intros (i & k & Hi & _)].
    destruct i; discriminate Hi.
  - rewrite elem_of_cons, IH. split.
    + intros [-> | (i & k' & Hi & ->)].
      * exists 0%nat, k. split; [reflexivity | f_equal; lia].
      * exists (S i), k'. split; [exact Hi | f_equal; lia].
    + intros ([|i] & k' & Hi & ->).
      * injection Hi as <-. left. f_equal. lia.
      * right. exists i, k'. split; [exact Hi | f_equal; lia].
  - rewrite IH. split.
    + intros (i & k' & Hi & ->).
      exists (S i), k'. split; [exact Hi | f_equal; lia].
    + intros ([|i] & k' & Hi & ->); [discriminate Hi |].
      exists i, k'. split; [exact Hi | f_equal; lia].
Qed.

(** One point per present entry, none for an absent one. *)
Lemma for_usage_length point usage index :
  length (for_usage point usage index) = length (omap id usage).
Proof.
  revert index. induction usage as [|[k|] usage IH]; intros index; simpl;
    [reflexivity | f_equal; apply IH | apply IH].
Qed.

Lemma for_usage_no_data point usage index :
  no_data usage = true -> for_usage point usage index = [].
Proof.
  revert index. induction usage as [|[k|] usage IH]; intros index; simpl;
    [reflexivity | discriminate | apply IH].
Qed.

Lemma replace_day_end_days (t n : Z) :
  replace_day_end (t + timedelta.days n)
  = replace_day_end t + timedelta.days n.
Proof.
  unfold replace_day_end, timedelta.days.
  Z.to_euclidean_division_equations; lia.
Qed.

(** X25.  The four loops over a fetched usage sequence, as they are
    written (lines 249-260, 294-303, 311-320 and 323-334): each emits
    exactly one point per entry that is not [None] and none for an entry
    that is; the entry at position [i] is stamped at the base of the series
    plus [i] units whatever the entries before it are, where the base is
    the start time the API returned, floored to the minute (MINUTE), as it
    is (SECOND), floored to the hour (HOUR), or moved to 23:59:59 of its
    local day (DAY). *)
Theorem usage_points_positions
    (account_name device_name chan_name : string)
    (usage : list (option float)) (usage_start_time : datetime)
    (p : data_point) :
  let mk watts t tag :=
    create_data_point account_name device_name chan_name watts (Some t) tag
      (influx_version cfg) (tag_name cfg) (add_station_field cfg) in
  let offset := utcoffset usage_start_time in
  (p ∈ minute_points cfg account_name device_name chan_name usage
         usage_start_time
   <-> exists (i : nat) k,
         usage !! i = Some (Some k)
         /\ p = mk (float_of_int 60000 * k)%float
                  (replace_second0 usage_start_time
                   + timedelta.minutes (Z.of_nat i))
                  (tag_value_minute cfg))
  /\ (p ∈ second_points cfg account_name device_name chan_name usage
            usage_start_time
      <-> exists (i : nat) k,
            usage !! i = Some (Some k)
            /\ p = mk (float_of_int 3600000 * k)%float
                     (usage_start_time + timedelta.seconds (Z.of_nat i))
                     (tag_value_second cfg))
  /\ (p ∈ hour_points cfg account_name device_name chan_name usage
            usage_start_time
      <-> exists (i : nat) k,
            usage !! i = Some (Some k)
            /\ p = mk (k * float_of_int 1000)%float
                     (replace_minute0 usage_start_time
                      + timedelta.hours (Z.of_nat i))
                     (tag_value_hour cfg))
  /\ (p ∈ day_points cfg account_name device_name chan_name usage
            usage_start_time
      <-> exists (i : nat) k,
            usage !! i = Some (Some k)
            /\ p = mk (k * float_of_int 1000)%float
                     (replace_day_end (usage_start_time + offset) - offset
                      + timedelta.days (Z.of_nat i))
                     (tag_value_day cfg))
  /\ length (minute_points cfg account_name device_name chan_name usage
               usage_start_time) = length (omap id usage)
  /\ length (second_points cfg account_name device_name chan_name usage
               usage_start_time) = length (omap id usage)
  /\ length (hour_points cfg account_name device_name chan_name usage
               usage_start_time) = length (omap id usage)
  /\ length (day_points cfg account_name device_name chan_name usage
               usage_start_time) = length (omap id usage).
Proof.
  cbv zeta.
  unfold minute_points, second_points, hour_points, day_points.
  rewrite !for_usage_elem, !for_usage_length.
  repeat split; try reflexivity;
    intros (i & k & Hi & ->); exists i, k; (split; [exact Hi |]);
    rewrite ?replace_day_end_days, ?Z.add_0_l; try reflexivity;
    do 2 f_equal; unfold timedelta.days; lia.
Qed.

End UsageSequences.

(** ** The name look-ups of a pass *)

Section NameLookups.
Context {Vue Sink : Type} `{MeteringApi Vue} `{SinkClient Sink} `{Locale}.
Variable cfg : settings.

(** The look-up of line 228 ends the processing of a channel before it
    reads the usage. *)
Lemma extract_channel_raises
    fuel acct device device_name chan_num chan stop_time dst collect_details
    point_type hs he (w : world Vue Sink) :
  extract_channel cfg fuel acct device device_name chan_num chan stop_time
    dst collect_details point_type hs he w
  = (Raised AttributeError, w).
Proof. reflexivity. Qed.




End NameLookups.

(** C8, the failing run: a live pass over a device whose only channel is
    the aggregate "Balance", with 0.125 kWh of usage, and a sink that holds
    no record.  The pass raises [AttributeError] at line 216 and the buffer
    stays empty; a whole cycle for an account with that device hands nothing
    to the sink, not even an empty batch, since the handler of line 319 is
    reached before the flush.  Lines 238-242 would append the minute point
    of 7500 W the claim describes. *)
Lemma aggregate_channel_no_point :
  let w :=
    Fixture.world_at Fixture.T0 Fixture.aggregate_only Fixture.empty_sink in
  extract_data_points Fixture.cfg 20 Fixture.account_A
    (Fixture.one_channel 1 "Balance" 0.125%float)
    (Fixture.T0 - 5) Fixture.T0 false None None None w
  = (Raised AttributeError, w)
  /\ excluded "Balance" = true
  /\ usage_data_points
       (snd (cycle Fixture.cfg 20 [Fixture.account_A] 0 Fixture.T0 w)) = []
  /\ write_log
       (snd (cycle Fixture.cfg 20 [Fixture.account_A] 0 Fixture.T0 w)) = [].
Proof. vm_compute. repeat split. Qed.

(** ** The catch-up loop *)

Section CatchUp.
Context {Vue Sink : Type} `{MeteringApi Vue} `{SinkClient Sink}.
Variable cfg : settings.
Variables (acct : account) (device_name chan_name : string)
          (chan : VueDeviceChannelUsage) (stop_time : datetime).

Lemma append_nothing (w : world Vue Sink) :
  set_usage_data_points (usage_data_points w ++ []) w = w.
Proof. rewrite app_nil_r. destruct w; reflexivity. Qed.

(** [no_data_flag] stays on exactly when every sample is [None]. *)
Lemma no_data_all_none usage :
  no_data usage = true -> forall sample, In sample usage -> sample = None.
Proof.
  unfold no_data. rewrite forallb_forall. intros Hall sample Hin.
  specialize (Hall sample Hin). destruct sample; [discriminate | reflexivity].
Qed.

Lemma no_data_sample usage :
  no_data usage = false -> exists kwh_usage, In (Some kwh_usage) usage.
Proof.
  induction usage as [|[k|] usage IH]; simpl; intros Hnone.
  - discriminate.
  - exists k. left. reflexivity.
  - destruct (IH Hnone) as [k Hin]. exists k. right. exact Hin.
Qed.

(** A sample that is not [None] gives a point. *)
Lemma for_usage_sample point usage index kwh_usage :
  In (Some kwh_usage) usage -> for_usage point usage index <> [].
Proof.
  revert index. induction usage as [|[k|] usage IH]; simpl; intros index Hin.
  - contradiction.
  - discriminate.
  - destruct Hin as [Hin | Hin]; [discriminate | apply IH, Hin].
Qed.

(** From a window of positive span, [n] rounds are enough when the
    floored stop time is at most [n - 1] spans after the window. *)
Lemma catch_up_rounds (n : nat) :
  forall start stop_min (w : world Vue Sink),
    0 < stop_min - start ->
    replace_second0 stop_time - stop_min
    <= (Z.of_nat n - 1) * (stop_min - start) ->
    (1 <= n)%nat ->
    catch_up_spec acct chan stop_time start stop_min w
      (minute_catch_up cfg n acct device_name chan_name chan stop_time
         start stop_min w).
Proof.
  induction n as [|n IH]; intros start stop_min w Hspan Hreach Hn; [lia |].
  cbn [minute_catch_up]. unfold bind, chart_usage.
  destruct (get_chart_usage (vue w) acct chan start stop_min MINUTE)
    as [[e | [usage usage_start_time]] v] eqn:Hcall.
  { apply catch_up_refused. exact Hcall. }
  unfold append_points.
  destruct (no_data usage) eqn:Hnone.
  - unfold minute_points. rewrite (for_usage_no_data _ _ _ Hnone).
    rewrite append_nothing.
    pose proof (no_data_all_none _ Hnone) as Hall.
    destruct (Z.ltb_spec stop_min (replace_second0 stop_time)) as [Hlt | Hge].
    + set (fl := replace_second0 stop_time) in *.
      assert (Hn' : (1 <= n)%nat) by nia.
      eapply catch_up_advance; [exact Hcall | exact Hall | exact Hlt |].
      apply IH.
      * unfold timedelta.seconds. lia.
      * unfold timedelta.seconds.
        destruct (Z.min_spec (stop_min + (stop_min - start)) fl)
          as [[Hlt' ->] | [Hge' ->]];
          (replace (Z.min (start + (stop_min - start)) fl) with stop_min
             by lia); nia.
      * exact Hn'.
    + eapply catch_up_offline; [exact Hcall | exact Hall | exact Hge].
  - destruct (no_data_sample _ Hnone) as [kwh_usage Hin].
    exact (catch_up_data acct chan stop_time start stop_min w usage
             usage_start_time v kwh_usage _ Hcall Hin
             (for_usage_sample _ _ _ _ Hin)).
Qed.

(** The specified runs end: normally, or with the exception of the API. *)
Lemma catch_up_spec_ends start stop_min (w : world Vue Sink) out :
  catch_up_spec acct chan stop_time start stop_min w out ->
  fst out = Ok tt \/ exists e, fst out = Raised e.
Proof.
  induction 1; simpl; [left | left | assumption | right; eexists];
    reflexivity.
Qed.

(** C9.  For every window the MINUTE resolver returns with a backfill
    (minute and second tags distinct), whatever the API answers, the
    catch-up loop ends within 14 rounds and runs as specified: a fetch with
    only [None] samples emits nothing and moves the window forward by its
    own span, both ends capped at the stop time floored to the minute; the
    loop ends at the first fetch that has a sample, or has none while the
    end of the window has reached that floored stop time, and then
    normally.  It ends with an exception only when the API refuses a
    request. *)
Theorem minute_catch_up_terminates
    (w : world Vue Sink) (start stop_min : datetime) (fuel : nat) :
  tag_value_minute cfg <> tag_value_second cfg ->
  get_last_db_timestamp device_name chan_name (tag_value_minute cfg)
    stop_time stop_time false (influx w) (tag_name cfg)
    (add_station_field cfg) (tag_value_minute cfg) (tag_value_second cfg)
    (detailed_interval_secs cfg)
  = (start, stop_min, true) ->
  (14 <= fuel)%nat ->
  let out :=
    minute_catch_up cfg fuel acct device_name chan_name chan stop_time
      start stop_min w in
  catch_up_spec acct chan stop_time start stop_min w out
  /\ (fst out = Ok tt \/ exists e, fst out = Raised e).
Proof.
  intros Hne Hres Hfuel.
  assert (Hwin : 0 < stop_min - start
                 /\ replace_second0 stop_time - stop_min
                    <= 13 * (stop_min - start)).
  { pose proof (second_bounds stop_time) as Hsec.
    revert Hres. unfold get_last_db_timestamp.
    rewrite String.eqb_refl, (eqb_ne _ _ Hne).
    unfold replace_second0, second in *.
    unfold timedelta.days, timedelta.hours, timedelta.minutes,
      timedelta.seconds.
    destruct (last_record_time _ _ _ _ _ _) as [t|].
    - cmp_cases; intros [= <- <-]; lia.
    - intros [= <- <-]. lia. }
  destruct Hwin as [Hspan Hreach].
  assert (Hrun :
            catch_up_spec acct chan stop_time start stop_min w
              (minute_catch_up cfg fuel acct device_name chan_name chan
                 stop_time start stop_min w))
    by (apply catch_up_rounds; [exact Hspan | nia | lia]).
  split; [exact Hrun | exact (catch_up_spec_ends _ _ _ _ Hrun)].
Qed.

End CatchUp.

Lemma minute_catch_up_terminates_run :
  let w := Fixture.world_at Fixture.T0 Fixture.silent Fixture.empty_sink in
  let out :=
    minute_catch_up Fixture.cfg 14 Fixture.account_A "device" "1"
      (mkChannel 1 "1" (Some 0.5%float) []) Fixture.T0
      (Fixture.T0 - timedelta.days 7)
      (Fixture.T0 - timedelta.days 7 + timedelta.hours 12) w in
  catch_up_spec Fixture.account_A (mkChannel 1 "1" (Some 0.5%float) [])
    Fixture.T0 (Fixture.T0 - timedelta.days 7)
    (Fixture.T0 - timedelta.days 7 + timedelta.hours 12) w out
  /\ fst out = Ok tt
  /\ length (chart_calls (snd out)) = 14%nat.
Proof.
  destruct (minute_catch_up_terminates Fixture.cfg Fixture.account_A
              "device" "1" (mkChannel 1 "1" (Some 0.5%float) []) Fixture.T0
              (Fixture.world_at Fixture.T0 Fixture.silent Fixture.empty_sink)
              (Fixture.T0 - timedelta.days 7)
              (Fixture.T0 - timedelta.days 7 + timedelta.hours 12) 14)
    as [Hrun _].
  - discriminate.
  - reflexivity.
  - apply le_n.
  - split; [exact Hrun | split; vm_compute; reflexivity].
Defined.

(** ** The flush *)

Section Flush.
Context {Vue Sink : Type} `{SinkClient Sink}.
Variable cfg : settings.

(** The flush at the end of an account's pass hands the buffer to the sink
    and leaves it as it is, whether the write succeeds or raises. *)
Lemma submit_keeps_buffer (acct : account) (w : world Vue Sink) :
  usage_data_points (snd (submit cfg acct w)) = usage_data_points w.
Proof.
  unfold submit. destruct (dryrun cfg); [reflexivity |].
  destruct (write_points (influx w) (usage_data_points w)) as [[e|] s];
    reflexivity.
Qed.

End Flush.

(** ** What a pass changes *)

Local Open Scope list_scope.

(** Induction over a usage tree: a property holds of a device when it holds
    of every device nested under one of its channels. *)
Lemma usage_tree_ind (P : VueUsageDevice -> Prop) :
  (forall gid chans,
      Forall (fun c => Forall (fun n => P (snd n)) (nested_devices (snd c)))
        chans ->
      P (mkDevice gid chans)) ->
  forall device, P device.
Proof.
  intros Hstep. fix IH 1. intros [gid chans]. apply Hstep.
  induction chans as [|[chan_num [g num u nested]] chans IHchans];
    constructor; [| exact IHchans].
  simpl. induction nested as [|[ngid nd] nested IHnested];
    constructor; [apply IH | exact IHnested].
Qed.

Section PassFrames.
Context {Vue Sink : Type} `{MeteringApi Vue} `{SinkClient Sink} `{Locale}.
Variable cfg : settings.

Lemma extends_refl P Q (w : world Vue Sink) : extends P Q w w.
Proof.
  unfold extends. split; [exists []; rewrite app_nil_r; auto |].
  split; [exists []; rewrite app_nil_r; auto |]. tauto.
Qed.

Lemma extends_trans P Q (w1 w2 w3 : world Vue Sink) :
  extends P Q w1 w2 -> extends P Q w2 w3 -> extends P Q w1 w3.
Proof.
  intros ((ps & Hps & HP) & (cs & Hcs & HQ) & Hf1)
         ((ps' & Hps' & HP') & (cs' & Hcs' & HQ') & Hf2).
  split; [exists (ps ++ ps')%list; rewrite Hps', Hps, <- app_assoc;
          split; [reflexivity | apply Forall_app; auto] |].
  split; [exists (cs ++ cs')%list; rewrite Hcs', Hcs, <- app_assoc;
          split; [reflexivity | apply Forall_app; auto] |].
  destruct Hf1 as (? & ? & ? & ? & ? & ? & ?),
           Hf2 as (? & ? & ? & ? & ? & ? & ?).
  repeat split; congruence.
Qed.

(** Sequencing, for a transitive relation between the world before and the
    world after. *)
Lemma bind_rel {A B} (R : world Vue Sink -> world Vue Sink -> Prop)
    (m : M A) (k : A -> M B) (w : world Vue Sink) :
  (forall a b c, R a b -> R b c -> R a c) ->
  R w (snd (m w)) ->
  (forall a w1, m w = (Ok a, w1) -> R w1 (snd (k a w1))) ->
  R w (snd (bind m k w)).
Proof.
  intros Htrans Hm Hk. unfold bind.
  destruct (m w) as [[a | e |] w1] eqn:Hrun; simpl in *; auto.
  eapply Htrans; [exact Hm | apply Hk; reflexivity].
Qed.

Lemma append_points_extends P Q ps (w : world Vue Sink) :
  Forall P ps -> extends P Q w (snd (append_points ps w)).
Proof.
  intros HP. unfold extends; simpl.
  split; [exists ps; auto |].
  split; [exists []; rewrite app_nil_r; auto |]. tauto.
Qed.

Lemma chart_usage_extends P (Q : chart_call -> Prop) acct chan start stop scale
    (w : world Vue Sink) :
  Q {| call_channel := chan; call_start := start; call_stop := stop;
       call_scale := scale |} ->
  extends P Q w (snd (chart_usage acct chan start stop scale w)).
Proof.
  intros HQ. unfold chart_usage.
  destruct (get_chart_usage (vue w) acct chan start stop scale) as [[e | r] v];
    unfold extends; simpl;
    (split; [exists []; rewrite app_nil_r; auto |]);
    (split; [eexists; split; [reflexivity | auto] |]); tauto.
Qed.

Lemma for_usage_Forall (P : data_point -> Prop) point usage index :
  (forall i k, P (point i k)) -> Forall P (for_usage point usage index).
Proof.
  intros HP. revert index.
  induction usage as [|[k|] usage IH]; intros index; simpl; auto.
Qed.

Lemma pass_point_created acct device_name chan_name watts timestamp detailed :
  detailed = tag_value_minute cfg \/ detailed = tag_value_second cfg
  \/ detailed = tag_value_hour cfg \/ detailed = tag_value_day cfg ->
  pass_point cfg acct
    (create_data_point (name acct) device_name chan_name watts timestamp
       detailed (influx_version cfg) (tag_name cfg) (add_station_field cfg)).
Proof. intros Htag. unfold pass_point; simpl. auto. Qed.

(** One step of a proof that a relation holds between the world before and
    the world after a computation. *)
Ltac frame :=
  repeat first
    [ apply extends_refl
    | apply append_points_extends
    | apply for_usage_Forall; intros
    | apply List.Forall_nil
    | apply List.Forall_cons
    | apply pass_point_created; auto 6
    | apply bind_rel; [apply extends_trans | | intros ? ? ?] ].

Lemma minute_catch_up_extends (Q : chart_call -> Prop)
    fuel acct device_name chan_name chan stop_time :
  (forall start stop,
      Q {| call_channel := chan; call_start := start; call_stop := stop;
           call_scale := MINUTE |}) ->
  forall start stop_min (w : world Vue Sink),
    extends (pass_point cfg acct) Q w
      (snd (minute_catch_up cfg fuel acct device_name chan_name chan stop_time
              start stop_min w)).
Proof.
  intros HQ. induction fuel as [|fuel IH]; intros start stop_min w.
  - apply extends_refl.
  - cbn [minute_catch_up]. frame.
    + apply chart_usage_extends, HQ.
    + destruct a as [usage usage_start_time]. frame.
      destruct (no_data usage); [| apply extends_refl].
      destruct (_ <? _); [apply IH | apply extends_refl].
Qed.

Ltac frame_call :=
  apply chart_usage_extends; unfold pass_call; simpl; repeat split;
  first [reflexivity | assumption].

Ltac frames :=
  repeat first
    [ progress frame
    | frame_call
    | match goal with
      | |- context [let '(_, _) := ?a in _] => destruct a
      end
    | progress unfold second_points, hour_points, day_points ].

Lemma extract_channel_extends
    fuel acct device device_name chan_num chan stop_time dst collect_details
    point_type hs he (w : world Vue Sink) :
  extends (pass_point cfg acct) (pass_call cfg collect_details point_type hs he)
    w
    (snd (extract_channel cfg fuel acct device device_name chan_num chan
            stop_time dst collect_details point_type hs he w)).
Proof.
  unfold extract_channel.
  apply bind_rel; [apply extends_trans | apply extends_refl |].
  intros chan_name w1 _. clear w. rename w1 into w. frame.
  - destruct (usage chan) as [kwh_usage|]; [| apply extends_refl].
    destruct point_type as [point_type|].
    + destruct (String.eqb_spec point_type (tag_value_day cfg));
        [subst; simpl; frame |].
      destruct (String.eqb_spec point_type (tag_value_hour cfg));
        [subst; simpl; frame | apply extends_refl].
    + frame. unfold get_world in *.
      destruct (get_last_db_timestamp _ _ _ _ _ _ _ _ _ _ _ _)
        as [[start stop_min] enabled].
      destruct (negb enabled || excluded chan_num); [frame |].
      destruct (negb (excluded chan_num)); simpl; [| apply extends_refl].
      destruct hs; [apply extends_refl |].
      apply minute_catch_up_extends. intros; split; reflexivity.
  - destruct (excluded chan_num); [apply extends_refl |]. frame.
    + destruct (collect_details && detailed_seconds_enabled cfg) eqn:Hsec;
        simpl; [| apply extends_refl].
      destruct hs; [apply extends_refl |]. frame. unfold get_world in *.
      destruct (get_last_db_timestamp _ _ _ _ _ _ _ _ _ _ _ _)
        as [[start stop_sec] enabled].
      apply andb_prop in Hsec as [Hcollect Henabled]. frames.
    + destruct hs as [hs|]; [| apply extends_refl].
      destruct he as [he|]; [| apply extends_refl]. frames.
Qed.

Lemma extract_data_points_extends
    fuel acct stop_time dst collect_details point_type hs he device :
  forall w : world Vue Sink,
    extends (pass_point cfg acct)
      (pass_call cfg collect_details point_type hs he) w
      (snd (extract_data_points cfg fuel acct device stop_time dst
              collect_details point_type hs he w)).
Proof.
  induction device as [gid chans IH] using usage_tree_ind.
  cbn [extract_data_points]. intros w.
  apply bind_rel; [apply extends_trans | apply extends_refl |].
  intros device_name w1 _. clear w. revert w1.
  generalize (mkDevice gid chans) at 1. intros device.
  induction chans as [|[chan_num [g num kwh_usage nested]] chans IHchans];
    intros w.
  - apply extends_refl.
  - apply Forall_cons_1 in IH as [IHnested IH]. simpl in IHnested.
    apply bind_rel; [apply extends_trans | | intros [] w1 _].
    + clear -IHnested. revert w.
      induction nested as [|[ngid nd] nested IHn]; intros w.
      * apply extends_refl.
      * apply Forall_cons_1 in IHnested as [IHnd IHnested].
        apply bind_rel; [apply extends_trans | apply IHnd | intros [] w1 _].
        apply IHn, IHnested.
    + apply bind_rel;
        [apply extends_trans | apply extract_channel_extends
        | intros [] w2 _].
      apply IHchans, IH.
Qed.

Lemma extract_all_extends
    fuel acct stop_time dst collect_details point_type hs he usages :
  forall w : world Vue Sink,
    extends (pass_point cfg acct)
      (pass_call cfg collect_details point_type hs he) w
      (snd (extract_all cfg fuel acct usages stop_time dst collect_details
              point_type hs he w)).
Proof.
  induction usages as [|[gid dev] usages IH]; intros w; simpl.
  - apply extends_refl.
  - frame; [apply extract_data_points_extends | apply IH].
Qed.

(** X1.  However an extraction pass over a device tree ends (normally, by
    an exception of the API, or out of fuel), it has only appended to the
    buffer: the points buffered before are still there, in the same order,
    and the sink, the batches written, the flags and times of the loop and
    the running flag are untouched. *)
Theorem extraction_only_appends
    fuel acct device stop_time dst collect_details point_type hs he
    (w : world Vue Sink) :
  let w' :=
    snd (extract_data_points cfg fuel acct device stop_time dst
           collect_details point_type hs he w) in
  (exists ps : list data_point,
      usage_data_points w' = (usage_data_points w ++ ps)%list)
  /\ influx w' = influx w /\ write_log w' = write_log w
  /\ history w' = history w /\ history_run w' = history_run w
  /\ past_day w' = past_day w
  /\ detailed_start_time w' = detailed_start_time w
  /\ running w' = running w.
Proof.
  destruct (extract_data_points_extends fuel acct stop_time dst
              collect_details point_type hs he device w)
    as ((ps & Hps & _) & _ & Hh & Hr & Hd & Ht & Hi & Hl & Hrun).
  cbv zeta. split; [exists ps; exact Hps |]. tauto.
Qed.



End PassFrames.

(** ** What a cycle keeps *)

Section CycleFrames.
Context {Vue Sink : Type} `{MeteringApi Vue} `{SinkClient Sink} `{Locale}.
Variable cfg : settings.

Lemma loop_frame_refl (w : world Vue Sink) : loop_frame cfg w w.
Proof. unfold loop_frame, sink_untouched. auto. Qed.

Lemma loop_frame_trans (w1 w2 w3 : world Vue Sink) :
  loop_frame cfg w1 w2 -> loop_frame cfg w2 w3 -> loop_frame cfg w1 w3.
Proof.
  unfold loop_frame, sink_untouched.
  intros (Hr & Hd & Hs) (Hr' & Hd' & Hs').
  split; [congruence |]. split; [congruence |].
  intros Hquiet. destruct (Hs Hquiet) as [Hi Hl].
  destruct Hs' as [Hi' Hl']; [rewrite Hr; exact Hquiet |].
  split; congruence.
Qed.

Lemma extends_loop_frame P Q (w w' : world Vue Sink) :
  extends P Q w w' -> loop_frame cfg w w'.
Proof.
  intros (_ & _ & _ & _ & _ & Hd & Hi & Hl & Hr).
  unfold loop_frame, sink_untouched. auto.
Qed.

Lemma extract_usages_frame fuel acct usages stop_time collect_details
    point_type hs he (w : world Vue Sink) :
  loop_frame cfg w
    (snd (extract_usages cfg fuel acct usages stop_time collect_details
            point_type hs he w)).
Proof.
  unfold extract_usages. destruct usages as [usages|];
    [| apply loop_frame_refl].
  apply bind_rel; [apply loop_frame_trans | apply loop_frame_refl |].
  intros a w1 _. eapply extends_loop_frame, extract_all_extends.
Qed.

Lemma device_list_usage_frame acct t scale (w : world Vue Sink) :
  loop_frame cfg w (snd (device_list_usage acct t scale w)).
Proof.
  unfold device_list_usage.
  destruct (get_device_list_usage (vue w) acct t scale) as [[e | r] v];
    unfold loop_frame, sink_untouched; simpl; auto.
Qed.

(** The flush keeps the frame where it is reached: in a dry run, or with
    the running flag on. *)
Lemma submit_frame acct (w : world Vue Sink) :
  dryrun cfg = true \/ running w = true ->
  loop_frame cfg w (snd (submit cfg acct w)).
Proof.
  intros Hreach. unfold submit.
  destruct (dryrun cfg) eqn:Hdry; [apply loop_frame_refl |].
  destruct Hreach as [Hdry' | Hrun]; [discriminate |].
  destruct (write_points (influx w) (usage_data_points w)) as [[e|] s];
    unfold loop_frame, sink_untouched; simpl;
    (split; [reflexivity |]); (split; [reflexivity |]);
    intros [Hd | Hr]; congruence.
Qed.

Lemma modify_frame (f : world Vue Sink -> world Vue Sink) (w : world Vue Sink) :
  loop_frame cfg w (f w) -> loop_frame cfg w (snd (modify f w)).
Proof. auto. Qed.

Ltac loop_bind :=
  apply bind_rel; [apply loop_frame_trans | | intros ? ? ?].

Lemma get_world_run (w a w1 : world Vue Sink) :
  get_world w = (Ok a, w1) -> a = w1.
Proof. unfold get_world. congruence. Qed.

Lemma history_loop_frame fuel acct usages stop_time collect_details offset
    stop_time_history :
  forall start (w : world Vue Sink),
    loop_frame cfg w
      (snd (history_loop cfg fuel acct usages stop_time collect_details offset
              start stop_time_history w)).
Proof.
  induction fuel as [|fuel IH]; intros start w; [apply loop_frame_refl |].
  cbn [history_loop]. destruct (start <=? stop_time_history);
    [| apply loop_frame_refl].
  loop_bind; [apply extract_usages_frame |].
  loop_bind; [apply loop_frame_refl |].
  match goal with Hget : get_world _ = (Ok ?a, _) |- context [running ?a] =>
    apply get_world_run in Hget as -> end.
  match goal with |- context [negb (running ?x)] =>
    destruct (running x) eqn:Hrun end; simpl; [| apply loop_frame_refl].
  loop_bind; [apply submit_frame; auto |].
  loop_bind; [| apply IH].
  unfold loop_frame, sink_untouched; simpl; auto.
Qed.

Lemma account_pass_frame fuel acct days now stop_time collect_details
    (w : world Vue Sink) :
  loop_frame cfg w
    (snd (account_pass cfg fuel acct days now stop_time collect_details w)).
Proof.
  unfold account_pass.
  loop_bind; [apply device_list_usage_frame |].
  loop_bind.
  { destruct a; [apply extract_usages_frame | apply loop_frame_refl]. }
  loop_bind.
  { destruct (collect_details && detailed_hours_enabled cfg);
      [| apply loop_frame_refl].
    loop_bind; [apply device_list_usage_frame |].
    loop_bind; [| apply loop_frame_refl].
    destruct a1; [apply extract_usages_frame | apply loop_frame_refl]. }
  loop_bind; [apply loop_frame_refl |].
  loop_bind.
  { destruct (negb _); [| apply loop_frame_refl].
    loop_bind; [apply device_list_usage_frame |].
    loop_bind.
    { destruct a3; [apply extract_usages_frame | apply loop_frame_refl]. }
    loop_bind; [| apply loop_frame_refl].
    unfold loop_frame, sink_untouched; simpl; auto. }
  loop_bind; [apply loop_frame_refl |].
  loop_bind.
  { destruct (history a4); [| apply loop_frame_refl].
    loop_bind; [apply history_loop_frame |].
    unfold loop_frame, sink_untouched; simpl; auto. }
  loop_bind; [apply loop_frame_refl |].
  match goal with Hget : get_world _ = (Ok ?a, _) |- context [running ?a] =>
    apply get_world_run in Hget as -> end.
  match goal with |- context [negb (running ?x)] =>
    destruct (running x) eqn:Hrun end; simpl; [| apply loop_frame_refl].
  loop_bind.
  { match goal with |- context [negb (history_run ?x)] =>
      destruct (history_run x) end; simpl;
      [apply loop_frame_refl | apply submit_frame; auto]. }
  loop_bind; [apply loop_frame_refl |].
  loop_bind; [| apply loop_frame_refl].
  match goal with |- context [if ?c then _ else _] => destruct c end;
    [| apply loop_frame_refl].
  unfold loop_frame, sink_untouched; simpl; auto.
Qed.

Lemma accounts_loop_frame fuel days now stop_time collect_details accounts :
  forall w : world Vue Sink,
    loop_frame cfg w
      (snd (accounts_loop cfg fuel accounts days now stop_time
              collect_details w)).
Proof.
  induction accounts as [|acct accounts IH]; intros w;
    [apply loop_frame_refl |].
  cbn [accounts_loop]. loop_bind.
  - unfold try_except.
    pose proof (account_pass_frame fuel acct days now stop_time
                  collect_details w) as Hpass.
    destruct (account_pass _ _ _ _ _ _ _ w) as [[b | e |] w1]; exact Hpass.
  - destruct a; [apply IH | apply loop_frame_refl].
Qed.

Lemma accounts_loop_catches fuel days now stop_time collect_details accounts :
  forall (w : world Vue Sink) e,
    fst (accounts_loop cfg fuel accounts days now stop_time collect_details w)
    <> Raised e.
Proof.
  induction accounts as [|acct accounts IH]; intros w e;
    [discriminate |].
  cbn [accounts_loop]. unfold bind, try_except.
  destruct (account_pass _ _ _ _ _ _ _ w) as [[[|] | e' |] w1]; simpl;
    try discriminate; apply IH.
Qed.

(** X5.  No exception leaves a cycle: whatever the API or the sink raise
    during the pass of an account is caught there, and the cycle ends
    normally (or, in the model, out of fuel). *)
Theorem cycle_never_raises fuel accounts days now (w : world Vue Sink) :
  fst (cycle cfg fuel accounts days now w) = Ok tt
  \/ fst (cycle cfg fuel accounts days now w) = OutOfFuel.
Proof.
  unfold cycle, bind, clear_points, get_world.
  pose proof (accounts_loop_catches fuel days now
                (now - timedelta.seconds (lag_secs cfg))
                (detailed_data_enabled cfg && (detailed_interval_secs cfg >? 0)
                 && (now - timedelta.seconds (lag_secs cfg)
                     - detailed_start_time (set_usage_data_points [] w)
                     >=? detailed_interval_secs cfg))
                accounts (set_usage_data_points [] w)) as Hcatch.
  destruct (accounts_loop _ _ _ _ _ _ _ _) as [[[] | e' |] w1]; simpl in *.
  - left. destruct (_ && _); reflexivity.
  - exfalso. exact (Hcatch e' eq_refl).
  - right. reflexivity.
Qed.

Lemma cycle_sink (fuel : nat) accounts days now (w : world Vue Sink) :
  dryrun cfg = true \/ running w = false ->
  sink_untouched w (snd (cycle cfg fuel accounts days now w)).
Proof.
  intros Hquiet. unfold cycle, bind, clear_points, get_world.
  set (w0 := set_usage_data_points [] w).
  set (stop_time := now - timedelta.seconds (lag_secs cfg)).
  set (collect := detailed_data_enabled cfg && _ && _).
  pose proof (accounts_loop_frame fuel days now stop_time collect accounts w0)
    as (_ & _ & Hs).
  destruct (accounts_loop _ _ _ _ _ _ _ w0) as [[[] | e' |] w1];
    simpl in *; try (apply Hs; exact Hquiet).
  destruct collect; simpl; apply Hs; exact Hquiet.
Qed.

(** X6.  In a dry run a cycle hands nothing to the sink: whatever the
    accounts, the API answers and the history request, the sink is in the
    state it was in and no batch has been added to those it received. *)
Theorem dry_run_never_writes fuel accounts days now (w : world Vue Sink) :
  dryrun cfg = true ->
  influx (snd (cycle cfg fuel accounts days now w)) = influx w
  /\ write_log (snd (cycle cfg fuel accounts days now w)) = write_log w.
Proof. intros Hdry. apply cycle_sink. left. exact Hdry. Qed.

(** X8.  A cycle that ends normally moves the start of the detailed
    collection to one second after its stop time when details were due, and
    leaves it where it was otherwise; details are due only when detailed
    data is enabled and at least the detail interval, a positive number of
    seconds, has passed since that start. *)
Theorem cycle_detailed_start fuel accounts days now (w w' : world Vue Sink) :
  cycle cfg fuel accounts days now w = (Ok tt, w') ->
  let stop_time := now - lag_secs cfg in
  let due :=
    detailed_data_enabled cfg && (0 <? detailed_interval_secs cfg)
    && (detailed_start_time w + detailed_interval_secs cfg <=? stop_time) in
  detailed_start_time w'
  = if due then stop_time + 1 else detailed_start_time w.
Proof.
  unfold cycle, bind at 1, clear_points. unfold bind at 1, get_world.
  set (w0 := set_usage_data_points [] w).
  set (stop_time := now - timedelta.seconds (lag_secs cfg)).
  set (collect := detailed_data_enabled cfg && _ && _).
  pose proof (accounts_loop_frame fuel days now stop_time collect accounts w0)
    as (_ & Hd & _).
  assert (Hdue : collect
                 = (detailed_data_enabled cfg && (0 <? detailed_interval_secs cfg)
                    && (detailed_start_time w + detailed_interval_secs cfg
                        <=? now - lag_secs cfg))).
  { unfold collect, stop_time, w0, timedelta.seconds. simpl.
    destruct (detailed_data_enabled cfg); simpl; [| reflexivity].
    rewrite Z.gtb_ltb, Z.geb_leb.
    destruct (0 <? detailed_interval_secs cfg); simpl; [| reflexivity].
    apply eq_true_iff_eq. rewrite !Z.leb_le. lia. }
  unfold bind.
  destruct (accounts_loop _ _ _ _ _ _ _ w0) as [[[] | e' |] w1];
    simpl in *; try discriminate.
  cbv zeta. rewrite <- Hdue.
  destruct collect; intros [= <-]; simpl; [reflexivity | exact Hd].
Qed.

Lemma bind_inv {A B} (m : M A) (k : A -> M B) (w w' : world Vue Sink) b :
  bind m k w = (Ok b, w') ->
  exists a w1, m w = (Ok a, w1) /\ k a w1 = (Ok b, w').
Proof.
  unfold bind. destruct (m w) as [[a | e |] w1]; try discriminate.
  intros Hk. exists a, w1. auto.
Qed.

Lemma extract_usages_extends fuel acct usages stop_time collect_details
    point_type hs he (w : world Vue Sink) :
  extends (pass_point cfg acct)
    (pass_call cfg collect_details point_type hs he) w
    (snd (extract_usages cfg fuel acct usages stop_time collect_details
            point_type hs he w)).
Proof.
  unfold extract_usages. destruct usages as [usages|];
    [| apply extends_refl].
  apply bind_rel; [apply extends_trans | apply extends_refl |].
  intros a w1 _. apply extract_all_extends.
Qed.

(** X9.  The historical backfill flushes once per sub-window: when the
    loop ends normally with the running flag on and writes enabled, the
    windows of its schedule were all gone through, the sink received exactly
    one batch per window, each in the name of the account, and after the last
    of them the buffer is empty. *)
Theorem history_loop_flushes_each_window
    acct usages stop_time collect_details offset stop_time_history fuel :
  forall start (w w' : world Vue Sink),
    dryrun cfg = false ->
    running w = true ->
    history_loop cfg fuel acct usages stop_time collect_details offset
      start stop_time_history w = (Ok tt, w') ->
    exists ws batches,
      history_windows fuel start stop_time_history = Some ws
      /\ write_log w' = write_log w ++ batches
      /\ length batches = length ws
      /\ Forall (fun b => fst b = name acct) batches
      /\ (ws <> [] -> usage_data_points w' = []).
Proof.
  intros start w w' Hwet. revert start w w'.
  induction fuel as [|fuel IH]; intros start w w' Hrun; [discriminate |].
  cbn [history_loop history_windows].
  destruct (start <=? stop_time_history).
  - intros Hloop.
    apply bind_inv in Hloop as ([] & w1 & Hextract & Hloop).
    apply bind_inv in Hloop as (a & wg & Hget & Hloop).
    injection Hget as <- <-.
    pose proof (extract_usages_extends fuel acct usages stop_time
                  collect_details (Some "History"%string)
                  (Some (start - offset))
                  (Some (history_end_of start stop_time_history - offset)) w)
      as (_ & _ & _ & _ & _ & _ & _ & Hlog1 & Hrun1).
    rewrite Hextract in Hlog1, Hrun1. simpl in Hlog1, Hrun1.
    rewrite Hrun1, Hrun in Hloop. simpl in Hloop.
    apply bind_inv in Hloop as ([] & w2 & Hsubmit & Hloop).
    apply bind_inv in Hloop as ([] & w3 & Hclear & Hloop).
    unfold submit in Hsubmit. rewrite Hwet in Hsubmit.
    destruct (write_points (influx w1) (usage_data_points w1))
      as [[e|] s]; [discriminate |].
    injection Hsubmit as <-. injection Hclear as <-.
    destruct (IH _ _ _ (eq_trans Hrun1 Hrun : running
                (set_usage_data_points []
                   (set_influx s (name acct, usage_data_points w1) w1))
                = true) Hloop)
      as (ws & batches & Hws & Hlog & Hlen & Hall & Hbuf).
    rewrite Hws.
    exists ((start, history_end_of start stop_time_history) :: ws),
           ((name acct, usage_data_points w1) :: batches).
    split; [reflexivity |]. split; [| split; [| split]].
    + rewrite Hlog. simpl. rewrite Hlog1, <- app_assoc. reflexivity.
    + simpl. congruence.
    + constructor; [reflexivity | exact Hall].
    + intros _. destruct ws as [|win ws].
      * destruct fuel; [discriminate |]. simpl in Hloop, Hws.
        destruct (_ <=? _).
        -- destruct (history_windows fuel _ _); discriminate.
        -- injection Hloop as <-. reflexivity.
      * apply Hbuf. discriminate.
  - intros [= <-]. exists [], []. rewrite app_nil_r.
    repeat split; try constructor. congruence.
Qed.

Lemma submit_history acct (w : world Vue Sink) :
  history (snd (submit cfg acct w)) = history w.
Proof.
  unfold submit. destruct (dryrun cfg); [reflexivity |].
  destruct (write_points (influx w) (usage_data_points w)) as [[e|] s];
    reflexivity.
Qed.

(** X10.  A pass that ends normally leaves the history request spent:
    whether it ran the historical backfill or not, [history] is off
    afterwards. *)
Theorem account_pass_spends_history
    fuel acct days now stop_time collect_details (w w' : world Vue Sink)
    go_on :
  account_pass cfg fuel acct days now stop_time collect_details w
  = (Ok go_on, w') ->
  history w' = false.
Proof.
  unfold account_pass. intros Hpass.
  apply bind_inv in Hpass as (usages & w1 & _ & Hpass).
  apply bind_inv in Hpass as ([] & w2 & _ & Hpass).
  apply bind_inv in Hpass as (usages' & w3 & _ & Hpass).
  apply bind_inv in Hpass as (a & wg & Hget & Hpass).
  injection Hget as <- <-.
  apply bind_inv in Hpass as (usages'' & w4 & _ & Hpass).
  apply bind_inv in Hpass as (a & wg & Hget & Hpass).
  injection Hget as <- <-.
  apply bind_inv in Hpass as ([] & w5 & Hhistory & Hpass).
  assert (Hspent : history w5 = false).
  { destruct (history w4) eqn:Hflag.
    - apply bind_inv in Hhistory as ([] & w4' & _ & Hset).
      injection Hset as <-. reflexivity.
    - injection Hhistory as <-. exact Hflag. }
  clear Hhistory.
  apply bind_inv in Hpass as (a & wg & Hget & Hpass).
  injection Hget as <- <-.
  destruct (running w5); simpl in Hpass;
    [| injection Hpass as _ <-; exact Hspent].
  apply bind_inv in Hpass as ([] & w6 & Hflush & Hpass).
  assert (Hkept : history w6 = false).
  { destruct (history_run w5); simpl in Hflush.
    - injection Hflush as <-. exact Hspent.
    - rewrite <- Hspent, <- (submit_history acct w5), Hflush. reflexivity. }
  apply bind_inv in Hpass as (a & wg & Hget & Hpass).
  injection Hget as <- <-.
  apply bind_inv in Hpass as ([] & w7 & Hrun & Hpass).
  injection Hpass as _ <-.
  destruct (negb (history w6) && history_run w6); injection Hrun as <-;
    exact Hkept.
Qed.

(** The end of the previous day is only moved by the day rollover. *)
Lemma extract_usages_day fuel acct usages stop_time collect_details
    point_type hs he (w : world Vue Sink) :
  past_day (snd (extract_usages cfg fuel acct usages stop_time
                   collect_details point_type hs he w))
  = past_day w.
Proof.
  destruct (extract_usages_extends fuel acct usages stop_time collect_details
              point_type hs he w) as (_ & _ & _ & _ & Hday & _).
  exact Hday.
Qed.

Lemma device_list_usage_day acct t scale (w : world Vue Sink) :
  past_day (snd (device_list_usage acct t scale w)) = past_day w.
Proof.
  unfold device_list_usage.
  destruct (get_device_list_usage (vue w) acct t scale) as [[e | x] v];
    reflexivity.
Qed.

Lemma submit_day acct (w : world Vue Sink) :
  past_day (snd (submit cfg acct w)) = past_day w.
Proof.
  unfold submit. destruct (dryrun cfg); [reflexivity |].
  destruct (write_points (influx w) (usage_data_points w)) as [[e|] s];
    reflexivity.
Qed.

Lemma history_loop_day fuel acct usages stop_time collect_details offset
    stop_time_history :
  forall start (w : world Vue Sink),
    past_day (snd (history_loop cfg fuel acct usages stop_time collect_details
                     offset start stop_time_history w))
    = past_day w.
Proof.
  pose (R := fun w w' : world Vue Sink => past_day w' = past_day w).
  assert (Htrans : forall a b c, R a b -> R b c -> R a c)
    by (unfold R; congruence).
  induction fuel as [|fuel IH]; intros start w; [reflexivity |].
  cbn [history_loop]. destruct (start <=? stop_time_history);
    [| reflexivity].
  apply (bind_rel R); [exact Htrans | apply extract_usages_day |].
  intros [] w1 _.
  apply (bind_rel R); [exact Htrans | reflexivity |].
  intros a wg Hget. injection Hget as <- <-.
  destruct (running w1); simpl; [| reflexivity].
  apply (bind_rel R); [exact Htrans | apply submit_day |].
  intros [] w2 _.
  apply (bind_rel R); [exact Htrans | reflexivity |].
  intros [] w3 _. apply IH.
Qed.

Lemma run_day {A} (m : M A) (w w1 : world Vue Sink) r :
  past_day (snd (m w)) = past_day w -> m w = (r, w1) ->
  past_day w1 = past_day w.
Proof. intros Hday Hrun. rewrite Hrun in Hday. exact Hday. Qed.

(** X23.  A pass that ends normally leaves the end of the previous day
    where it was when the local day of [now] is the day it names, and
    otherwise at 23:59:59 of the local day of [now], whatever the hourly
    collection, the historical backfill and the flush did in between. *)
Theorem account_pass_day_rollover
    fuel acct days now stop_time collect_details (w w' : world Vue Sink)
    go_on :
  account_pass cfg fuel acct days now stop_time collect_details w
  = (Ok go_on, w') ->
  past_day w'
  = if day (wall (past_day w)) =? day (now + utcoffset now)
    then past_day w
    else {| wall := replace_day_end (now + utcoffset now);
            utcoff := utcoffset now |}.
Proof.
  unfold account_pass. intros Hpass.
  apply bind_inv in Hpass as (usages & w1 & Hlist & Hpass).
  apply (run_day _ _ _ _ (device_list_usage_day _ _ _ _)) in Hlist.
  apply bind_inv in Hpass as ([] & w2 & Hlive & Hpass).
  assert (Hday2 : past_day w2 = past_day w).
  { rewrite <- Hlist. destruct usages.
    - apply (run_day _ _ _ _ (extract_usages_day _ _ _ _ _ _ _ _ _) Hlive).
    - injection Hlive as <-. reflexivity. }
  clear Hlist Hlive.
  apply bind_inv in Hpass as (usages' & w3 & Hhour & Hpass).
  assert (Hday3 : past_day w3 = past_day w).
  { rewrite <- Hday2. destruct (collect_details && detailed_hours_enabled cfg).
    - apply bind_inv in Hhour as (u & wa & Hlist & Hhour).
      apply (run_day _ _ _ _ (device_list_usage_day _ _ _ _)) in Hlist.
      apply bind_inv in Hhour as ([] & wb & Hrun & Hret).
      injection Hret as _ <-. rewrite <- Hlist. destruct u.
      + apply (run_day _ _ _ _ (extract_usages_day _ _ _ _ _ _ _ _ _) Hrun).
      + injection Hrun as <-. reflexivity.
    - injection Hhour as _ <-. reflexivity. }
  clear Hday2 Hhour.
  apply bind_inv in Hpass as (a & wg & Hget & Hpass).
  injection Hget as <- <-.
  apply bind_inv in Hpass as (usages'' & w4 & Hroll & Hpass).
  rewrite Hday3 in Hroll.
  assert (Hday4 :
            past_day w4
            = if day (wall (past_day w)) =? day (now + utcoffset now)
              then past_day w
              else {| wall := replace_day_end (now + utcoffset now);
                      utcoff := utcoffset now |}).
  { destruct (day (wall (past_day w)) =? day (now + utcoffset now));
      simpl in Hroll.
    - injection Hroll as _ <-. exact Hday3.
    - apply bind_inv in Hroll as (u & wa & _ & Hroll).
      apply bind_inv in Hroll as ([] & wb & _ & Hroll).
      apply bind_inv in Hroll as ([] & wc & Hset & Hret).
      injection Hret as _ <-. injection Hset as <-. reflexivity. }
  rewrite <- Hday4. clear Hday3 Hday4 Hroll.
  apply bind_inv in Hpass as (a & wg & Hget & Hpass).
  injection Hget as <- <-.
  apply bind_inv in Hpass as ([] & w5 & Hhistory & Hpass).
  assert (Hday5 : past_day w5 = past_day w4).
  { destruct (history w4).
    - apply bind_inv in Hhistory as ([] & wa & Hloop & Hset).
      injection Hset as <-. simpl.
      apply (run_day _ _ _ _ (history_loop_day _ _ _ _ _ _ _ _ _) Hloop).
    - injection Hhistory as <-. reflexivity. }
  rewrite <- Hday5. clear Hday5 Hhistory.
  apply bind_inv in Hpass as (a & wg & Hget & Hpass).
  injection Hget as <- <-.
  destruct (running w5); simpl in Hpass;
    [| injection Hpass as _ <-; reflexivity].
  apply bind_inv in Hpass as ([] & w6 & Hflush & Hpass).
  assert (Hday6 : past_day w6 = past_day w5).
  { destruct (history_run w5); simpl in Hflush.
    - injection Hflush as <-. reflexivity.
    - apply (run_day _ _ _ _ (submit_day _ _) Hflush). }
  rewrite <- Hday6. clear Hday6 Hflush.
  apply bind_inv in Hpass as (a & wg & Hget & Hpass).
  injection Hget as <- <-.
  apply bind_inv in Hpass as ([] & w7 & Hrun & Hpass).
  injection Hpass as _ <-.
  destruct (negb (history w6) && history_run w6); injection Hrun as <-;
    reflexivity.
Qed.

End CycleFrames.

(** ** The batches of a cycle *)

Section Batches.
Context {Vue Sink : Type} `{MeteringApi Vue} `{SinkClient Sink} `{Locale}.
Variable cfg : settings.













End Batches.

(** ** More on the window resolver *)

Section ResolverMore.
Context {Sink : Type} `{SinkClient Sink}.

(** X11.  Whatever the point type, the tags and the sink, for a proposed
    window with start <= stop the resolver never returns a stop later than
    the proposed stop, and never turns a history flag off. *)
Theorem resolver_never_later
    dn cn pt start stop flag (influx : Sink) tag asf tm ts interval s e f :
  start <= stop ->
  get_last_db_timestamp dn cn pt start stop flag influx tag asf tm ts interval
  = (s, e, f) ->
  e <= stop /\ (flag = true -> f = true).
Proof.
  intros Hle. unfold get_last_db_timestamp.
  unfold timedelta.days, timedelta.hours, timedelta.minutes,
    timedelta.seconds.
  destruct (last_record_time influx tag asf dn cn pt) as [t|];
    destruct (String.eqb pt tm); destruct (String.eqb pt ts);
    cmp_cases; intros [= <- <- <-]; (split; [lia | auto]).
Qed.

(** X12.  A backfill triggered by a stored record never reaches back to
    that record: with distinct tags, the adjusted start is at least one
    minute after the last stored timestamp for MINUTE, and at least one
    second after it for SECOND. *)
Theorem resolver_past_last_record
    dn cn pt start stop flag (influx : Sink) tag asf tm ts interval t s e f :
  tm <> ts -> pt = tm \/ pt = ts ->
  last_record_time influx tag asf dn cn pt = Some t ->
  (if String.eqb pt tm
   then t < stop - (timedelta.minutes 2 + second stop)
   else t < start - timedelta.seconds 2) ->
  get_last_db_timestamp dn cn pt start stop flag influx tag asf tm ts interval
  = (s, e, f) ->
  t + (if String.eqb pt tm then timedelta.minutes 1 else timedelta.seconds 1)
  <= s.
Proof.
  intros Hne Hpt Hlast Htrig. pose proof (second_bounds stop) as Hsec.
  unfold get_last_db_timestamp. rewrite Hlast. revert Htrig.
  unfold timedelta.days, timedelta.hours, timedelta.minutes,
    timedelta.seconds.
  destruct Hpt as [-> | ->].
  - rewrite String.eqb_refl, (eqb_ne _ _ Hne).
    cmp_cases; intros Htrig [= <- <- <-]; lia.
  - rewrite String.eqb_refl, (eqb_ne ts tm) by congruence.
    cmp_cases; intros Htrig [= <- <- <-]; lia.
Qed.

End ResolverMore.

(** ** More on the catch-up loop *)

Section CatchUpMore.
Context {Vue Sink : Type} `{MeteringApi Vue}.
Variable cfg : settings.

(** X13.  The catch-up loop only sends MINUTE requests for its own
    channel, and none of them ends after the later of the end of its first
    window and the stop time floored to the minute, whatever the API answers
    and however the loop ends. *)
Theorem minute_catch_up_requests
    acct device_name chan_name chan stop_time fuel :
  forall start stop_min (w : world Vue Sink),
    exists cs,
      chart_calls
        (snd (minute_catch_up cfg fuel acct device_name chan_name chan
                stop_time start stop_min w))
      = chart_calls w ++ cs
      /\ Forall (fun c => call_channel c = chan /\ call_scale c = MINUTE
                          /\ call_stop c
                             <= Z.max stop_min (replace_second0 stop_time))
           cs.
Proof.
  induction fuel as [|fuel IH]; intros start stop_min w.
  - exists []. rewrite app_nil_r. split; [reflexivity | constructor].
  - cbn [minute_catch_up]. unfold bind, chart_usage, append_points.
    destruct (get_chart_usage (vue w) acct chan start stop_min MINUTE)
      as [[e | [usage usage_start_time]] v]; simpl.
    + eexists. split; [reflexivity |].
      constructor; [simpl; repeat split; lia | constructor].
    + destruct (no_data usage); simpl;
        [| eexists; split; [reflexivity |];
           constructor; [simpl; repeat split; lia | constructor]].
      destruct (stop_min <? replace_second0 stop_time); simpl;
        [| eexists; split; [reflexivity |];
           constructor; [simpl; repeat split; lia | constructor]].
      match goal with
      | |- context [minute_catch_up cfg fuel _ _ _ _ _ ?a ?b ?w1] =>
          destruct (IH a b w1) as (cs & Hcs & Hall)
      end.
      rewrite Hcs. simpl. rewrite <- app_assoc. eexists.
      split; [reflexivity |]. constructor; [simpl; repeat split; lia |].
      eapply Forall_impl; [exact Hall |].
      intros c (Hchan & Hscale & Hstop). repeat split; auto.
      unfold timedelta.seconds in Hstop. lia.
Qed.

End CatchUpMore.

(** ** Devices and names *)

Section DeviceProperties.
Context {Vue : Type} `{DeviceApi Vue} `{Python}.
Implicit Type r : registry Vue.

Lemma name_channel_named device_name chan :
  named (Device.name_channel device_name chan).
Proof.
  unfold Device.name_channel, named.
  destruct (dc_name chan) as [n|] eqn:Hname; [rewrite Hname; discriminate |].
  destruct (String.eqb_spec (dc_channel_num chan) "1,2,3") as [Hnum | Hnum];
    simpl; [discriminate | congruence].
Qed.

Lemma index_channels_lookup gid chans :
  forall (m : gmap string VueDeviceChannel) key chan,
    Device.index_channels gid chans m !! key = Some chan ->
    m !! key = Some chan
    \/ (In chan chans /\ key = dash gid (dc_channel_num chan)).
Proof.
  induction chans as [|c chans IH]; intros m key chan; simpl; [auto |].
  intros Hlook. apply IH in Hlook as [Hlook | [Hin Hkey]]; [| auto].
  destruct (decide (dash gid (dc_channel_num c) = key)) as [<- | Hne].
  - rewrite lookup_insert_eq in Hlook. injection Hlook as <-. auto.
  - rewrite lookup_insert_ne in Hlook by exact Hne. auto.
Qed.

Lemma populate_loop_ok devices :
  forall r, registry_ok r -> registry_ok (snd (Device.populate_loop devices r)).
Proof.
  induction devices as [|device devices IH]; intros r Hok; [exact Hok |].
  simpl.
  destruct (populate_device_properties (session r) device) as [[e | d] v];
    [exact Hok |].
  apply IH. destruct Hok as [Hdev Hchan]. split; simpl.
  - intros gid dv Hlook.
    destruct (decide (dv_device_gid d = gid)) as [<- | Hne].
    + rewrite lookup_insert_eq in Hlook. injection Hlook as <-.
      split; [reflexivity |]. simpl. apply List.Forall_forall.
      intros c Hin. apply in_map_iff in Hin as (c0 & <- & _).
      apply name_channel_named.
    + rewrite lookup_insert_ne in Hlook by exact Hne. auto.
  - intros key chan Hlook.
    apply index_channels_lookup in Hlook as [Hold | [Hin Hkey]].
    + destruct (Hchan _ _ Hold) as (Hnamed & gid & Hkey & Hsome).
      split; [exact Hnamed |]. exists gid. split; [exact Hkey |].
      destruct (decide (dv_device_gid d = gid)) as [<- | Hne];
        [rewrite lookup_insert_eq; eauto
        | rewrite lookup_insert_ne by exact Hne; exact Hsome].
    + apply in_map_iff in Hin as (c0 & <- & _).
      split; [apply name_channel_named |].
      exists (dv_device_gid d). split; [exact Hkey |].
      rewrite lookup_insert_eq. eauto.
Qed.

Lemma populate_loop_requests devices :
  forall r,
    device_requests (snd (Device.populate_loop devices r)) = device_requests r.
Proof.
  induction devices as [|device devices IH]; intros r; [reflexivity |].
  simpl.
  destruct (populate_device_properties (session r) device) as [[e | d] v];
    [reflexivity |].
  rewrite IH. reflexivity.
Qed.

Lemma populate_devices_requests r :
  device_requests (snd (Device.populate_devices r)) = S (device_requests r).
Proof.
  unfold Device.populate_devices.
  destruct (get_devices (session r)) as [[e | devices] v]; [reflexivity |].
  rewrite populate_loop_requests. reflexivity.
Qed.

(** X14.  However [populate_devices] ends, and whatever the maps held
    before, the two maps it leaves agree: every device is filed under its
    own gid, every channel under the gid of a device that is in the device
    map followed by its own channel number, and no channel numbered "1,2,3"
    is left without a name. *)
Theorem populate_devices_consistent r :
  registry_ok (snd (Device.populate_devices r)).
Proof.
  unfold Device.populate_devices.
  assert (Hempty : forall v n,
             registry_ok
               ({| deviceIdMap := ∅; channelIdMap := ∅;
                   configured := configured r; session := v;
                   device_requests := n |} : registry Vue)).
  { intros v n. split; simpl; intros k x Hlook;
      rewrite lookup_empty in Hlook; discriminate. }
  destruct (get_devices (session r)) as [[e | devices] v];
    [apply Hempty | apply populate_loop_ok, Hempty].
Qed.

(** X15.  [lookup_device_name] answers a known device from the map,
    without a request and without touching the account; whenever it
    answers, the name is the one the device map holds afterwards for the
    gid, and the gid printed in decimal when the map holds none. *)
Theorem lookup_device_name_answer r gid name r' :
  Device.lookup_device_name r gid = (Ok name, r') ->
  name = match deviceIdMap r' !! gid with
         | Some device => dv_device_name device
         | None => pretty gid
         end
  /\ (is_Some (deviceIdMap r !! gid) -> r' = r).
Proof.
  unfold Device.lookup_device_name, Device.ensure_known.
  destruct (deviceIdMap r !! gid) as [device|] eqn:Hknown.
  - rewrite Hknown. intros [= <- <-]. rewrite Hknown. auto.
  - destruct (Device.populate_devices r) as [[[] | e |] r1];
      try discriminate.
    intros [= <- <-]. split; [reflexivity |]. intros [x Hx]. discriminate.
Qed.

(** X16.  A refresh that fails wipes the account's maps: when the gid is
    unknown and the request for the device list raises, the look-up raises
    too and leaves both maps empty, the devices known before included. *)
Theorem failed_refresh_empties_maps r gid e v :
  deviceIdMap r !! gid = None ->
  get_devices (session r) = (inl e, v) ->
  exists r',
    Device.lookup_device_name r gid = (Raised e, r')
    /\ deviceIdMap r' = ∅ /\ channelIdMap r' = ∅
    /\ device_requests r' = S (device_requests r).
Proof.
  intros Hunknown Hfail.
  unfold Device.lookup_device_name, Device.ensure_known,
    Device.populate_devices.
  rewrite Hunknown, Hfail. eexists. repeat split.
Qed.

Lemma py_index_In {A : Type} (l : list A) (i : Z) (x : A) :
  py_index l i = Some x -> In x l.
Proof.
  unfold py_index. intros Hlook. apply list_elem_of_In.
  destruct (0 <=? i); [eapply list_elem_of_lookup_2; exact Hlook |].
  destruct (- i <=? Z.of_nat (length l)); [| discriminate].
  eapply list_elem_of_lookup_2; exact Hlook.
Qed.

(** X17.  A name taken from the configuration is one the configuration
    gives: when the search through [account['devices']] ends with a name,
    some configured device of that device name lists it among its channel
    names. *)
Theorem channel_override_configured devices device_name num name :
  Device.channel_override devices device_name num = Device.Override name ->
  configured_name devices device_name name.
Proof.
  induction devices as [|device devices IH]; simpl; [discriminate |].
  intros Hfound.
  assert (Hrest :
    Device.channel_override devices device_name num = Device.Override name ->
    configured_name (device :: devices) device_name name).
  { intros Hr. destruct (IH Hr) as (d & Hin & Hd).
    exists d. split; [right; exact Hin | exact Hd]. }
  destruct (cfg_name device) as [n|] eqn:Hname; [| auto].
  destruct (String.eqb_spec n device_name) as [-> | Hne]; [| auto].
  destruct (cfg_channels device) as [[names | names |]|] eqn:Hchans; auto.
  - destruct (num <=? Z.of_nat (length names)); [| auto].
    destruct (py_index names (num - 1)) as [x|] eqn:Hx; [| discriminate].
    injection Hfound as <-. exists device.
    split; [left; reflexivity |]. split; [exact Hname |].
    rewrite Hchans. eapply py_index_In, Hx.
  - destruct (names !! pretty num) as [x|] eqn:Hx; [| discriminate].
    injection Hfound as <-. exists device.
    split; [left; reflexivity |]. split; [exact Hname |].
    rewrite Hchans. eauto.
Qed.

(** X18.  The channel names given as a list, for the first configured
    device of the right name: a channel number from 1 to the length of the
    list takes the name at that position; the number 0 takes the last name
    of the list (an index of -1), and fails on an empty list; a number
    beyond the length passes on to the configured devices that follow. *)
Theorem channel_override_list device devices device_name names num :
  cfg_name device = Some device_name ->
  cfg_channels device = Some (ChannelList names) ->
  (1 <= num <= Z.of_nat (length names) ->
   exists name,
     names !! Z.to_nat (num - 1) = Some name
     /\ Device.channel_override (device :: devices) device_name num
        = Device.Override name)
  /\ (num = 0 ->
      Device.channel_override (device :: devices) device_name num
      = match last names with
        | Some name => Device.Override name
        | None => Device.Failed
        end)
  /\ (Z.of_nat (length names) < num ->
      Device.channel_override (device :: devices) device_name num
      = Device.channel_override devices device_name num).
Proof.
  intros Hname Hchans. simpl. rewrite Hname, String.eqb_refl, Hchans.
  split; [| split].
  - intros Hrange. destruct (Z.leb_spec num (Z.of_nat (length names))); [| lia].
    unfold py_index. destruct (Z.leb_spec 0 (num - 1)); [| lia].
    destruct (lookup_lt_is_Some_2 names (Z.to_nat (num - 1))) as [x Hx];
      [lia |].
    exists x. rewrite Hx. auto.
  - intros ->.
    destruct (Z.leb_spec 0 (Z.of_nat (length names))); [| lia].
    unfold py_index. destruct (Z.leb_spec 0 (0 - 1)); [lia |].
    destruct (Z.leb_spec (- (0 - 1)) (Z.of_nat (length names)))
      as [Hsome | Hnone].
    + rewrite last_lookup.
      replace (Z.to_nat (Z.of_nat (length names) + (0 - 1)))
        with (pred (length names)) by lia.
      reflexivity.
    + destruct names; [reflexivity | simpl in Hnone; lia].
  - intros Hbeyond.
    destruct (Z.leb_spec num (Z.of_nat (length names))); [lia | reflexivity].
Qed.

(** X19.  The name of a channel of a known device when nothing is
    configured for it: without a request and without touching the account,
    the device name alone for the channel "1,2,3" when its number is not an
    int, and the device name, a dash and the channel number when the number
    is not an int or the account has no [devices] entry. *)
Theorem lookup_channel_name_default r chan device :
  deviceIdMap r !! dc_device_gid chan = Some device ->
  py_int (dc_channel_num chan) = None \/ configured r = None ->
  Device.lookup_channel_name r chan
  = (Ok (if match py_int (dc_channel_num chan) with
            | None => String.eqb (dc_channel_num chan) "1,2,3"
            | Some _ => false
            end
         then dv_device_name device
         else dv_device_name device +:+ "-" +:+ dc_channel_num chan),
     r).
Proof.
  intros Hknown Hplain.
  unfold Device.lookup_channel_name, Device.lookup_device_name,
    Device.ensure_known.
  rewrite !Hknown.
  destruct (py_int (dc_channel_num chan)) as [num|].
  - destruct Hplain as [Hint | Hcfg]; [discriminate |].
    rewrite Hcfg. reflexivity.
  - destruct (String.eqb (dc_channel_num chan) "1,2,3"); reflexivity.
Qed.

(** X20.  The name of a channel of a device that stays unknown costs two
    requests for the device list, one by the look-up of the channel and one
    by the look-up of the device name inside it; a known device costs
    none. *)
Theorem lookup_channel_name_requests r chan name r' :
  Device.lookup_channel_name r chan = (Ok name, r') ->
  (is_Some (deviceIdMap r !! dc_device_gid chan) -> r' = r)
  /\ (deviceIdMap r !! dc_device_gid chan = None ->
      deviceIdMap r' !! dc_device_gid chan = None ->
      device_requests r' = S (S (device_requests r))).
Proof.
  unfold Device.lookup_channel_name, Device.lookup_device_name,
    Device.ensure_known.
  destruct (deviceIdMap r !! dc_device_gid chan) as [device|] eqn:Hknown.
  - rewrite Hknown. intros [= _ <-]. split; [reflexivity | discriminate].
  - pose proof (populate_devices_requests r) as Hone.
    destruct (Device.populate_devices r) as [[[] | e |] r1];
      try discriminate.
    simpl in Hone.
    destruct (deviceIdMap r1 !! dc_device_gid chan) as [device|] eqn:Hfound.
    + intros [= _ <-]. split; [intros [x Hx]; discriminate |].
      intros _ Hstill. congruence.
    + pose proof (populate_devices_requests r1) as Htwo.
      destruct (Device.populate_devices r1) as [[[] | e |] r2];
        try discriminate.
      simpl in Htwo. intros [= _ <-].
      split; [intros [x Hx]; discriminate |].
      intros _ _. congruence.
Qed.

End DeviceProperties.

(** ** The timestamp string *)

(** X21.  For a timestamp string of at least 19 characters whose 14th
    character is no sign and whose 19th is no "Z" (an ISO 8601 timestamp
    has ":" and a digit there), what is parsed is its first 19 characters
    followed by "Z": fractions of a second and any offset from UTC the sink
    wrote after the seconds are dropped, and the time is read as UTC. *)
Theorem normalize_time_str_utc (time_str : list ascii) (c : ascii) :
  (19 <= length time_str)%nat ->
  time_str !! 13%nat = Some c -> c <> "+"%char -> c <> "-"%char ->
  time_str !! 18%nat <> Some "Z"%char ->
  normalize_time_str time_str = Some (take 19 time_str ++ ["Z"%char]).
Proof.
  intros Hlen Hsign Hplus Hminus Hz. unfold normalize_time_str.
  assert (Hcut : length (take 19 time_str) = 19%nat)
    by (rewrite length_take; lia).
  destruct (decide (last (take 19 time_str) = Some "Z"%char)) as [Hlast | _].
  - exfalso. apply Hz. rewrite last_lookup, Hcut in Hlast. simpl in Hlast.
    rewrite lookup_take_lt in Hlast by lia. exact Hlast.
  - unfold py_index. rewrite Hcut. simpl.
    change (Z.to_nat (Z.of_nat 19 - 6)) with 13%nat.
    rewrite lookup_take_lt by lia. rewrite Hsign.
    destruct (decide (c = "+"%char \/ c = "-"%char)) as [[Hc | Hc] | _];
      [contradiction | contradiction | reflexivity].
Qed.

(** ** Runs of the properties above *)

Lemma dry_run_never_writes_run :
  write_log
    (snd (cycle Scenario.dry_cfg 20 [Fixture.account_A; Fixture.account_B] 0
            (Fixture.T0 + 60)
            (Fixture.world_at (Fixture.T0 + 60) Fixture.two_accounts
               (Fixture.sink_at (Fixture.T0 + 30)))))
  = [].
Proof.
  apply (dry_run_never_writes Scenario.dry_cfg 20
           [Fixture.account_A; Fixture.account_B] 0 (Fixture.T0 + 60)
           (Fixture.world_at (Fixture.T0 + 60) Fixture.two_accounts
              (Fixture.sink_at (Fixture.T0 + 30)))).
  reflexivity.
Defined.

Lemma cycle_detailed_start_run :
  detailed_start_time
    (snd (cycle Fixture.cfg 20 [Fixture.account_A] 0 (Fixture.T0 + 4000)
            (Fixture.world_at Fixture.T0 Fixture.two_accounts
               (Fixture.sink_at (Fixture.T0 + 3990)))))
  = Fixture.T0 + 3996.
Proof.
  apply (cycle_detailed_start Fixture.cfg 20 [Fixture.account_A] 0
           (Fixture.T0 + 4000)
           (Fixture.world_at Fixture.T0 Fixture.two_accounts
              (Fixture.sink_at (Fixture.T0 + 3990)))).
  vm_compute. reflexivity.
Defined.

Lemma history_loop_flushes_each_window_run :
  length
    (write_log
       (snd (history_loop Fixture.cfg 5 Fixture.account_A
               (Some [])
               Fixture.T0 false 0
               (history_first_start Fixture.T0 30) Fixture.T0
               (Fixture.world_at Fixture.T0 Fixture.silent
                  (Fixture.sink_at Fixture.T0)))))
  = 2%nat.
Proof.
  destruct (history_loop_flushes_each_window Fixture.cfg Fixture.account_A
              (Some [])
              Fixture.T0 false 0 Fixture.T0 5
              (history_first_start Fixture.T0 30)
              (Fixture.world_at Fixture.T0 Fixture.silent
                 (Fixture.sink_at Fixture.T0))
              (snd (history_loop Fixture.cfg 5 Fixture.account_A
                      (Some [])
                      Fixture.T0 false 0
                      (history_first_start Fixture.T0 30) Fixture.T0
                      (Fixture.world_at Fixture.T0 Fixture.silent
                         (Fixture.sink_at Fixture.T0)))))
    as (ws & batches & Hws & Hlog & Hlen & _).
  - reflexivity.
  - reflexivity.
  - vm_compute. reflexivity.
  - rewrite Hlog, length_app, Hlen. vm_compute in Hws.
    injection Hws as <-. reflexivity.
Defined.

Lemma account_pass_spends_history_run :
  history
    (snd (account_pass Fixture.cfg 5 Fixture.account_A 30 (Fixture.T0 + 60)
            (Fixture.T0 + 55) false
            (Scenario.world_with_history 30 (Fixture.T0 + 60)
               Fixture.silent (Fixture.sink_at (Fixture.T0 + 30)))))
  = false.
Proof.
  apply (account_pass_spends_history Fixture.cfg 5 Fixture.account_A 30
           (Fixture.T0 + 60) (Fixture.T0 + 55) false
           (Scenario.world_with_history 30 (Fixture.T0 + 60)
              Fixture.silent (Fixture.sink_at (Fixture.T0 + 30)))
           _ true).
  vm_compute. reflexivity.
Defined.

Lemma resolver_never_later_run :
  let '(_, e, f) :=
    get_last_db_timestamp "device" "1" "True"
      Fixture.T0 (Fixture.T0 + 7200) true
      (Fixture.sink_at (Fixture.T0 - 50000)) "detailed" false
      "False" "True" 60 in
  e <= Fixture.T0 + 7200 /\ f = true.
Proof.
  destruct (resolver_never_later "device" "1" "True"
              Fixture.T0 (Fixture.T0 + 7200) true
              (Fixture.sink_at (Fixture.T0 - 50000)) "detailed" false
              "False" "True" 60
              (Fixture.T0 + 7200 - 10800) (Fixture.T0 + 7200 - 7200) true)
    as [He Hf].
  - lia.
  - reflexivity.
  - split; [exact He | reflexivity].
Defined.

Lemma resolver_past_last_record_run :
  let '(s, _, _) :=
    get_last_db_timestamp "device" "1" "False"
      Fixture.T0 Fixture.T0 false
      (Fixture.sink_at (Fixture.T0 - 3600)) "detailed" false
      "False" "True" 3600 in
  Fixture.T0 - 3600 + 60 <= s.
Proof.
  apply (resolver_past_last_record "device" "1" "False"
           Fixture.T0 Fixture.T0 false
           (Fixture.sink_at (Fixture.T0 - 3600)) "detailed" false
           "False" "True" 3600 (Fixture.T0 - 3600)
           (Fixture.T0 - 3540) Fixture.T0 true).
  - discriminate.
  - left; reflexivity.
  - reflexivity.
  - vm_compute. reflexivity.
  - reflexivity.
Defined.

Lemma lookup_device_name_answer_run :
  fst (Device.lookup_device_name
         (Scenario.empty_registry [Scenario.panel] None) 7)
  = Ok "Panel".
Proof.
  destruct (lookup_device_name_answer
              (Scenario.empty_registry [Scenario.panel] None) 7 "Panel"
              (snd (Device.lookup_device_name
                      (Scenario.empty_registry [Scenario.panel] None) 7)))
    as [Hname _].
  - reflexivity.
  - reflexivity.
Defined.

Lemma failed_refresh_empties_maps_run :
  exists r',
    Device.lookup_device_name (Scenario.empty_registry [] None) 7
    = (Raised ApiError, r')
    /\ deviceIdMap r' = ∅ /\ channelIdMap r' = ∅
    /\ device_requests r' = 1%nat.
Proof.
  apply (failed_refresh_empties_maps (Scenario.empty_registry [] None) 7
           ApiError []); reflexivity.
Defined.

Lemma channel_override_configured_run :
  configured_name
    [{| cfg_name := Some "Panel";
        cfg_channels := Some (ChannelList ["Oven"; "Dryer"]) |}]
    "Panel" "Dryer".
Proof.
  apply (channel_override_configured
           [{| cfg_name := Some "Panel";
               cfg_channels := Some (ChannelList ["Oven"; "Dryer"]) |}]
           "Panel" 2 "Dryer").
  reflexivity.
Defined.

Lemma channel_override_list_run :
  Device.channel_override
    [{| cfg_name := Some "Panel";
        cfg_channels := Some (ChannelList ["Oven"; "Dryer"]) |}]
    "Panel" 0
  = Device.Override "Dryer".
Proof.
  apply (channel_override_list
           {| cfg_name := Some "Panel";
              cfg_channels := Some (ChannelList ["Oven"; "Dryer"]) |}
           [] "Panel" ["Oven"; "Dryer"] 0); reflexivity.
Defined.

Lemma lookup_channel_name_default_run :
  Device.lookup_channel_name
    (snd (Device.populate_devices
            (Scenario.empty_registry [Scenario.panel] None)))
    {| dc_device_gid := 7; dc_name := None; dc_channel_num := "1,2,3" |}
  = (Ok "Panel",
     snd (Device.populate_devices
            (Scenario.empty_registry [Scenario.panel] None))).
Proof.
  exact (lookup_channel_name_default
           (snd (Device.populate_devices
                   (Scenario.empty_registry [Scenario.panel] None)))
           {| dc_device_gid := 7; dc_name := None; dc_channel_num := "1,2,3" |}
           (Device.name_channels Scenario.panel)
           eq_refl (or_introl eq_refl)).
Defined.

Lemma lookup_channel_name_requests_run :
  device_requests
    (snd (Device.lookup_channel_name
            (Scenario.empty_registry [Scenario.panel] None)
            {| dc_device_gid := 8; dc_name := None; dc_channel_num := "1" |}))
  = 2%nat.
Proof.
  destruct (lookup_channel_name_requests
              (Scenario.empty_registry [Scenario.panel] None)
              {| dc_device_gid := 8; dc_name := None; dc_channel_num := "1" |}
              "8-1"
              (snd (Device.lookup_channel_name
                      (Scenario.empty_registry [Scenario.panel] None)
                      {| dc_device_gid := 8; dc_name := None;
                         dc_channel_num := "1" |})))
    as [_ Htwo].
  - reflexivity.
  - apply Htwo; reflexivity.
Defined.

Lemma normalize_time_str_utc_run :
  normalize_time_str (list_ascii_of_string "2023-11-14T22:13:20.5+02:00")
  = Some (list_ascii_of_string "2023-11-14T22:13:20Z").
Proof.
  apply (normalize_time_str_utc
           (list_ascii_of_string "2023-11-14T22:13:20.5+02:00") ":"%char).
  - vm_compute. lia.
  - reflexivity.
  - discriminate.
  - discriminate.
  - discriminate.
Defined.

Lemma account_pass_day_rollover_run :
  past_day
    (snd (account_pass Fixture.cfg 5 Fixture.account_A 0
            (Fixture.T0 + 86460) (Fixture.T0 + 86455) false
            (Fixture.world_at Fixture.T0 Fixture.silent
               (Fixture.sink_at (Fixture.T0 + 86430)))))
  = {| wall := replace_day_end (Fixture.T0 + 86460); utcoff := 0 |}.
Proof.
  etransitivity.
  - apply (account_pass_day_rollover Fixture.cfg 5 Fixture.account_A 0
             (Fixture.T0 + 86460) (Fixture.T0 + 86455) false
             (Fixture.world_at Fixture.T0 Fixture.silent
                (Fixture.sink_at (Fixture.T0 + 86430)))
             _ true).
    vm_compute. reflexivity.
  - vm_compute. reflexivity.
Defined.

